(** * fabric-cli [asset transfer reclaim]: the command and its view-address builder

    A shallow embedding of
    [samples/fabric/fabric-cli/src/commands/asset/transfer/reclaim.ts]:
    the gluegun command [run] and the helper [getReclaimViewAddress].

    Conventions of the embedding.
    - JavaScript values that reach the command (option values, configuration
      fields) are the primitive values of [jsval]; a number is [NaN] or an
      integer (the model agrees with the IEEE double of the program for
      integers below 2^53 in absolute value).
    - A string is a [string] of 8-bit code units.
    - [toolbox.parameters.options] is a JavaScript object used as a map: a
      [gmap string jsval] whose absent keys read as [undefined]. An option
      given several times, which the argument parser turns into an array, is
      outside the model.
    - Code that the file imports ([getNetworkConfig], [fabricHelper], the
      wallet, [getLocalAssetPledgeDetails], [getChaincodeConfig],
      [InteroperableHelper], [Buffer]) is a field of the record [Env].
    - Effects are recorded in a trace of [Event]s, in program order. *)

From stdpp Require Import gmap strings list pretty.
From Stdlib Require Import ZArith Ascii String Lia.

Local Open Scope Z_scope.

(** ** JavaScript primitive values *)

Module JS.

(** A Number: [NaN] or an integer. *)
Inductive number : Type :=
| NaN
| Int (z : Z).

Inductive jsval : Type :=
| JUndefined
| JBool (b : bool)
| JNum (n : number)
| JStr (s : string).

Global Instance number_eq_dec : EqDecision number.
Proof. solve_decision. Defined.

Global Instance jsval_eq_dec : EqDecision jsval.
Proof. solve_decision. Defined.

(** [ToBoolean]: what [if (v)], [!v] and [v ? a : b] test. *)
Definition truthy (v : jsval) : bool :=
  match v with
  | JUndefined => false
  | JBool b => b
  | JNum NaN => false
  | JNum (Int z) => negb (z =? 0)
  | JStr s => negb (String.eqb s "")
  end.

(** [ToString]: what [+] with a string operand and template literals apply. *)
Definition ToString (v : jsval) : string :=
  match v with
  | JUndefined => "undefined"
  | JBool true => "true"
  | JBool false => "false"
  | JNum NaN => "NaN"
  | JNum (Int z) => pretty z
  | JStr s => s
  end.

(** [v === w] on primitive values: [NaN] equals nothing. *)
Definition strict_eq (v w : jsval) : bool :=
  match v with
  | JNum NaN => false
  | _ => bool_decide (v = w)
  end.

(** An element of an array of strings read by index: [undefined] out of range. *)
Definition elem (o : option string) : jsval :=
  match o with
  | Some s => JStr s
  | None => JUndefined
  end.

(** [s.split(sep)] for a one-character separator: never the empty array. *)
Fixpoint split (sep : ascii) (s : string) : list string :=
  match s with
  | EmptyString => [EmptyString]
  | String c s' =>
      if Ascii.eqb c sep then EmptyString :: split sep s'
      else match split sep s' with
           | [] => [String c EmptyString]
           | h :: t => String c h :: t
           end
  end.

(** [StrWhiteSpaceChar] among the 8-bit code units:
    TAB, LF, VT, FF, CR, SP and NBSP. *)
Definition is_white_space (c : ascii) : bool :=
  let n := nat_of_ascii c in
  ((9 <=? n) && (n <=? 13) || (n =? 32) || (n =? 160))%nat.

Fixpoint trim_start (s : string) : string :=
  match s with
  | String c s' => if is_white_space c then trim_start s' else s
  | EmptyString => EmptyString
  end.

(** The value of a code unit as a digit: [0-9], [a-z] and [A-Z]. *)
Definition digit_value (c : ascii) : option Z :=
  let n := Z.of_nat (nat_of_ascii c) in
  if (48 <=? n) && (n <=? 57) then Some (n - 48)
  else if (97 <=? n) && (n <=? 122) then Some (n - 87)
  else if (65 <=? n) && (n <=? 90) then Some (n - 55)
  else None.

(** The longest prefix of radix-[R] digits, as a number; [acc] is [None]
    until a digit has been read. *)
Fixpoint parse_digits (R : Z) (s : string) (acc : option Z) : option Z :=
  match s with
  | EmptyString => acc
  | String c s' =>
      match digit_value c with
      | Some d =>
          if d <? R then parse_digits R s' (Some (R * default 0 acc + d))
          else acc
      | None => acc
      end
  end.

(** [parseInt(v)] with no radix argument. *)
Definition parseInt (v : jsval) : number :=
  let s1 := trim_start (ToString v) in
  let '(sign, s2) :=
    match s1 with
    | String "-" r => (-1, r)
    | String "+" r => (1, r)
    | _ => (1, s1)
    end in
  let '(R, s3) :=
    match s2 with
    | String "0" (String "x" r) => (16, r)
    | String "0" (String "X" r) => (16, r)
    | _ => (10, s2)
    end in
  match parse_digits R s3 None with
  | Some n => Int (sign * n)
  | None => NaN
  end.

(** [isNaN(n)] for a Number [n]. *)
Definition isNaN (n : number) : bool :=
  match n with
  | NaN => true
  | Int _ => false
  end.

(** [a.toString()] of an array, as a template literal applies it: the
    elements joined by commas, [undefined] rendered as the empty string. *)
Definition Array_toString (a : list jsval) : string :=
  String.concat ","
    (map (fun v => match v with JUndefined => EmptyString | _ => ToString v end) a).

End JS.
Export JS.

(** String concatenation, associating to the left as [+] does. *)
Infix "^^" := String.append (at level 50, left associativity).

(** ** The data the command exchanges with its helpers *)

(** What [getNetworkConfig] returns (read from the CLI's configuration). *)
Record NetworkConfig : Type := {
  relayEndpoint : jsval;
  connProfilePath : jsval;
  channelName : jsval;
  chaincode : jsval;
  mspId : jsval
}.

(** JavaScript objects held by reference. *)
Inductive Wallet : Type := WalletRef (id : nat).
Inductive Contract : Type := ContractRef (id : nat).
Inductive View : Type := ViewRef (id : nat).

Record KeyCert : Type := { key : string; cert : string }.

(** An exception (a rejected promise, when awaited). *)
Inductive Exn : Type :=
| TypeError (msg : string)
| Error (msg : string).

Definition Exn_toString (e : Exn) : string :=
  match e with
  | TypeError msg => "TypeError: " ^^ msg
  | Error msg => "Error: " ^^ msg
  end.

(** The argument object of [fabricHelper] (its [logger] field left out). *)
Record FabricHelperArgs : Type := {
  fh_channel : jsval;
  fh_contractName : jsval;
  fh_connProfilePath : jsval;
  fh_networkName : jsval;
  fh_mspId : jsval;
  fh_discoveryEnabled : bool;
  fh_userString : jsval
}.

(** The argument object of [getLocalAssetPledgeDetails]. *)
Record PledgeQuery : Type := {
  sourceNetworkName : jsval;
  pledgeId : jsval;
  caller : jsval;
  ccType : jsval
}.

(** The pledge record, through its getters. *)
Record PledgeDetails : Type := {
  getRecipient : string;
  getRemotenetworkid : string;
  getExpirytimesecs : Z
}.

Record InvokeObject : Type := {
  channel : jsval;
  ccFunc : string;
  ccArgs : list jsval;
  contractName : jsval
}.

Record ViewRequest : Type := { address : string; Sign : bool }.

(** The positional arguments of [InteroperableHelper.interopFlow]. *)
Record InteropFlowArgs : Type := {
  if_contract : Contract;
  if_networkName : jsval;
  if_invokeObject : InvokeObject;
  if_mspId : jsval;
  if_relayEndpoint : jsval;
  if_replaceIndices : list Z;
  if_views : list ViewRequest;
  if_keyCert : KeyCert;
  if_returnWithoutLocalInvocation : bool;
  if_useTls : bool;
  if_tlsRootCACertPaths : list string
}.

Record InteropFlowResponse : Type := {
  views : list View;
  result : jsval
}.

(** ** Effects *)

Inductive ConsoleArg : Type :=
| LogValue (v : jsval)
| LogInvokeObject (o : InvokeObject).

Inductive Event : Type :=
| commandHelp
| print_error (msg : string)
| print_spin (msg : string)
| spinner_succeed (msg : string)
| spinner_fail (msg : string)
| logger_level (lvl : string)
| logger_debug (msg : string)
| logger_info (msg : string)
| logger_error (msg : string)
| console_log (args : list ConsoleArg)
| call_fabricHelper (a : FabricHelperArgs)
| call_wallet_get (w : Wallet) (label : jsval)
| call_getLocalAssetPledgeDetails (q : PledgeQuery)
| call_getKeyAndCertForRemoteRequestbyUserName (w : Wallet) (username : jsval)
| call_interopFlow (a : InteropFlowArgs)
| process_exit (code : option Z).

(** How a computation ends: with a value, by ending the process, or by
    throwing. *)
Inductive result_of (A : Type) : Type :=
| Val (a : A)
| Halt (code : option Z)
| Throw (e : Exn).
Arguments Val {A} a.
Arguments Halt {A} code.
Arguments Throw {A} e.

(** A computation: the events it performs, in order, and how it ends. *)
Definition M (A : Type) : Type := list Event * result_of A.

Definition ret {A} (a : A) : M A := ([], Val a).

Definition bind {A B} (m : M A) (f : A -> M B) : M B :=
  match m with
  | (t, Val a) => let '(t', r) := f a in (t ++ t', r)
  | (t, Halt c) => (t, Halt c)
  | (t, Throw e) => (t, Throw e)
  end.

Definition emit (e : Event) : M unit := ([e], Val tt).

Definition throw {A} (e : Exn) : M A := ([], Throw e).

(** [process.exit(code)] *)
Definition exit {A} (code : option Z) : M A := ([process_exit code], Halt code).

(** A call of an imported function: the call is an event, and its outcome
    (given by the environment) is a value or an exception. *)
Definition call {A} (e : Event) (r : Exn + A) : M A :=
  ([e], match r with inl x => Throw x | inr a => Val a end).

(** [handlePromise(p)]: the call never throws; it answers the value or the
    error of the promise. *)
Definition handlePromise {A} (e : Event) (r : Exn + A) : M (Exn + A) :=
  ([e], Val r).

(** [try { m } catch (e) { h e }] *)
Definition try_catch {A} (m : M A) (h : Exn -> M A) : M A :=
  match m with
  | (t, Throw e) => let '(t', r) := h e in (t ++ t', r)
  | _ => m
  end.

Declare Scope js_scope.
Delimit Scope js_scope with js.
Notation "x <- m ;; k" := (bind m (fun x => k))
  (at level 100, m at next level, right associativity) : js_scope.
Notation "m ;; k" := (bind m (fun _ => k))
  (at level 100, right associativity) : js_scope.

(** The trace and the outcome of a computation. *)
Definition trace {A} (m : M A) : list Event := fst m.
Definition outcome {A} (m : M A) : result_of A := snd m.

(** ** The environment: what the imported code answers *)

Record Env : Type := {
  getNetworkConfig : jsval -> NetworkConfig;
  DEFAULT_CHAINCODE : jsval;
  fabricHelper : FabricHelperArgs -> Exn + (Wallet * Contract);
  wallet_get : Wallet -> jsval -> Exn + option string;
  Buffer_base64 : string -> string;
  getLocalAssetPledgeDetails : PledgeQuery -> Exn + PledgeDetails;
  getKeyAndCertForRemoteRequestbyUserName : Wallet -> jsval -> Exn + KeyCert;
  getChaincodeConfig : jsval -> string -> Exn + list Z;
  interopFlow : InteropFlowArgs -> Exn + InteropFlowResponse;
  view_toObject_JSON : View -> string;
  getResponseDataFromView : View -> Exn + string
}.

(** ** The program *)

Local Open Scope js_scope.

(** [!cfg.connProfilePath || !cfg.channelName || !cfg.chaincode] *)
Definition unresolved (cfg : NetworkConfig) : bool :=
  negb (truthy (connProfilePath cfg)) || negb (truthy (channelName cfg))
  || negb (truthy (chaincode cfg)).

(** [getReclaimViewAddress] *)
Definition getReclaimViewAddress (env : Env)
    (assetCategory : jsval) (assetType : jsval) (assetIdOrQuantity : jsval)
    (pledgeId : jsval) (pledgerCert : jsval) (sourceNetwork : jsval)
    (recipientCert : jsval) (destNetwork : jsval) (pledgeExpiryTimeSecs : jsval)
    : M string :=
  let destNetConfig := getNetworkConfig env destNetwork in
  if unresolved destNetConfig then ret ""
  else
    let address :=
      ToString (relayEndpoint destNetConfig) ^^ "/" ^^ ToString destNetwork ^^ "/" ^^
      ToString (channelName destNetConfig) ^^ ":" ^^
      ToString (chaincode destNetConfig) ^^ ":" in
    address <-
      (if strict_eq assetCategory (JStr "bond") then
         ret (address ^^ "GetAssetClaimStatus")
       else if strict_eq assetCategory (JStr "token") then
         ret (address ^^ "GetTokenAssetClaimStatus")
       else
         emit (console_log [LogValue (JStr "Unecognized asset category:");
                            LogValue assetCategory]) ;;
         exit (Some 1)) ;;
    let address :=
      address ^^ ":" ^^ ToString pledgeId ^^ ":" ^^ ToString assetType ^^ ":" ^^
      ToString assetIdOrQuantity ^^ ":" ^^ ToString recipientCert ^^ ":" ^^
      ToString pledgerCert ^^ ":" ^^ ToString sourceNetwork ^^ ":" ^^
      ToString pledgeExpiryTimeSecs in
    ret address.

(** [toolbox.parameters.options]: an absent key reads as [undefined]. *)
Definition get (options : gmap string jsval) (k : string) : jsval :=
  default JUndefined (options !! k).

(** [v.split(':')]: a [TypeError] unless [v] is a string. *)
Definition split_colons (v : jsval) : M (list string) :=
  match v with
  | JStr s => ret (split ":" s)
  | _ => throw (TypeError "split is not a function")
  end.

(** The local chaincode function of the flow. *)
Definition applicationFunction (assetCategory : jsval) : string :=
  if strict_eq assetCategory (JStr "token") then "ReclaimTokenAsset"
  else "ReclaimAsset".

(** The body of the [try] block of [run]. *)
Definition invoke_flow (env : Env) (contract : Contract) (networkName : jsval)
    (netConfig : NetworkConfig) (replaceIndices : list Z)
    (viewAddress : string) (keyCert : KeyCert) (relay_tls : jsval)
    (relayTlsCAFiles : list string) (invokeObject : InvokeObject) : M unit :=
  emit (console_log [LogInvokeObject invokeObject]) ;;
  let a := {|
    if_contract := contract;
    if_networkName := networkName;
    if_invokeObject := invokeObject;
    if_mspId := mspId netConfig;
    if_relayEndpoint := relayEndpoint netConfig;
    if_replaceIndices := replaceIndices;
    if_views := [{| address := viewAddress; Sign := true |}];
    if_keyCert := keyCert;
    if_returnWithoutLocalInvocation := false;
    if_useTls := strict_eq relay_tls (JStr "true");
    if_tlsRootCACertPaths := relayTlsCAFiles
  |} in
  interopFlowResponse <- call (call_interopFlow a) (interopFlow env a) ;;
  view0 <- match views interopFlowResponse with
           | v :: _ => ret v
           | [] => throw (TypeError "Cannot read properties of undefined (reading 'toObject')")
           end ;;
  emit (logger_info
          ("View from remote network: " ^^ view_toObject_JSON env view0 ^^
           ". Interop Flow result: " ^^
           ToString (if truthy (result interopFlowResponse)
                     then result interopFlowResponse else JStr "successful"))) ;;
  remoteValue <- match getResponseDataFromView env view0 with
                 | inl e => throw e
                 | inr s => ret s
                 end ;;
  emit (spinner_succeed
          ("Called Function " ^^ ccFunc invokeObject ^^ ". With Args: " ^^
           Array_toString (ccArgs invokeObject) ^^ " " ^^ remoteValue)).

(** The double quote, for the messages that quote a category. *)
Definition dquote : string := String "034"%char EmptyString.

(** The three messages of the checks on [--param]:
    assetId needs to be specified for (quoted) bond type,
    num of units needs to be specified for (quoted) token type,
    num of units must be an integer for (quoted) token type. *)
Definition assetId_needed : string :=
  "assetId needs to be specified for " ^^ dquote ^^ "bond" ^^ dquote ^^ " type".
Definition num_of_units_needed : string :=
  "num of units needs to be specified for " ^^ dquote ^^ "token" ^^ dquote ^^ " type".
Definition num_of_units_integer : string :=
  "num of units must be an integer for " ^^ dquote ^^ "token" ^^ dquote ^^ " type".

(** The rest of [run], from the lookup of the source network to the end
    (lines 137 to 237), with the variables in scope there as parameters. *)
Definition reclaim (env : Env) (options : gmap string jsval)
    (assetType assetCategory assetIdOrQuantity : jsval) : M unit :=
  let networkName := get options "source-network" in
  let netConfig := getNetworkConfig env networkName in
  if unresolved netConfig then
    emit (print_error
            ("Please use a valid --source-network. No valid environment found for " ^^
             ToString (get options "source-network") ^^ " "))
  else
  let channel := channelName netConfig in
  let contractName :=
    if truthy (DEFAULT_CHAINCODE env) then DEFAULT_CHAINCODE env
    else JStr "interop" in
  let username := get options "user" in
  let fh := {|
    fh_channel := channel;
    fh_contractName := contractName;
    fh_connProfilePath := connProfilePath netConfig;
    fh_networkName := networkName;
    fh_mspId := mspId netConfig;
    fh_discoveryEnabled := true;
    fh_userString := username
  |} in
  wc <- call (call_fabricHelper fh) (fabricHelper env fh) ;;
  let '(wallet, contract) := wc in
  userId <- call (call_wallet_get wallet username) (wallet_get env wallet username) ;;
  userCert <- match userId with
              | Some certificate => ret (Buffer_base64 env certificate)
              | None => throw (TypeError "Cannot read properties of undefined (reading 'credentials')")
              end ;;
  let q := {|
    sourceNetworkName := networkName;
    pledgeId := get options "pledge-id";
    caller := username;
    ccType := assetCategory
  |} in
  pledgeAssetDetails <-
    call (call_getLocalAssetPledgeDetails q) (getLocalAssetPledgeDetails env q) ;;
  viewAddress <-
    getReclaimViewAddress env assetCategory assetType assetIdOrQuantity
      (get options "pledge-id") (JStr userCert) networkName
      (JStr (getRecipient pledgeAssetDetails))
      (JStr (getRemotenetworkid pledgeAssetDetails))
      (JNum (Int (getExpirytimesecs pledgeAssetDetails))) ;;
  if String.eqb viewAddress "" then
    emit (print_error
            ("Please use a valid --dest-network. No valid environment found for " ^^
             ToString (get options "dest-network") ^^ " "))
  else
  kc <- handlePromise (call_getKeyAndCertForRemoteRequestbyUserName wallet username)
          (getKeyAndCertForRemoteRequestbyUserName env wallet username) ;;
  match kc with
  | inl keyCertError =>
      emit (print_error ("Error getting key and cert " ^^ Exn_toString keyCertError))
  | inr keyCert =>
      emit (print_spin "Starting Interop Query for ClaimStatus in destination network") ;;
      let appChaincodeId := chaincode netConfig in
      let applicationFunction := applicationFunction assetCategory in
      replaceIndices <-
        match getChaincodeConfig env appChaincodeId applicationFunction with
        | inl e => throw e
        | inr r => ret r
        end ;;
      let args := [get options "pledge-id";
                   JStr (getRecipient pledgeAssetDetails);
                   JStr (getRemotenetworkid pledgeAssetDetails);
                   JStr ""] in
      relayTlsCAFiles <-
        (if truthy (get options "relay-tls-ca-files")
         then split_colons (get options "relay-tls-ca-files")
         else ret []) ;;
      try_catch
        (invoke_flow env contract networkName netConfig replaceIndices
           viewAddress keyCert (get options "relay-tls") relayTlsCAFiles
           {| channel := channel;
              ccFunc := applicationFunction;
              ccArgs := args;
              contractName := appChaincodeId |})
        (fun e =>
           emit (spinner_fail "Error verifying and storing state") ;;
           emit (logger_error ("Error verifying and storing state: " ^^ Exn_toString e))) ;;
      exit None
  end.


(** [command.run], after the destructuring of [toolbox]: the checks of the
    options (lines 38 to 135), then [reclaim]. *)
Definition run (env : Env) (options : gmap string jsval) : M unit :=
  if truthy (get options "help") || truthy (get options "h") then
    emit commandHelp
  else
  (if strict_eq (get options "debug") (JStr "true") then
     emit (logger_level "debug") ;; emit (logger_debug "Debugging is enabled")
   else ret tt) ;;
  if negb (truthy (get options "source-network")) then
    emit (print_error "--source-network needs to be specified")
  else if negb (truthy (get options "user")) then
    emit (print_error "--user needs to be specified")
  else if negb (truthy (get options "type")) then
    emit (print_error "--type of network needs to be specified")
  else if negb (truthy (get options "param")) then
    emit (print_error "--param needs to be specified")
  else
  params <- split_colons (get options "param") ;;
  let assetType := elem (params !! 0%nat) in
  let assetCategory := get options "type" in
  if truthy assetCategory && negb (truthy (elem (params !! 1%nat))) then
    emit (print_error assetId_needed)
  else if truthy assetCategory && negb (truthy (elem (params !! 1%nat))) then
    emit (print_error num_of_units_needed)
  else if strict_eq assetCategory (JStr "token")
          && isNaN (parseInt (elem (params !! 1%nat))) then
    emit (print_error num_of_units_integer)
  else
  let assetIdOrQuantity :=
    if strict_eq assetCategory (JStr "token")
    then JNum (parseInt (elem (params !! 1%nat)))
    else elem (params !! 1%nat) in
  reclaim env options assetType assetCategory assetIdOrQuantity.

Local Close Scope js_scope.

(** ** The address format of the specification *)

Module AddressCodec.

(** The structured locator [RemoteViewAddress]. *)
Record RemoteViewAddress : Type := {
  relayEndpoint : string;
  network : string;
  channel : string;
  contract : string;
  function : string;
  args : list string
}.

(** The format
    [<relayEndpoint>/<network>/<channel>:<contract>:<function>:<arg1>:...:<argN>],
    written from the words of the specification. *)
Definition build (a : RemoteViewAddress) : string :=
  relayEndpoint a ^^ "/" ^^ network a ^^ "/" ^^
  String.concat ":" (channel a :: contract a :: function a :: args a).

(** Modelled from the spec: the parser of addresses, the inverse of the
    builder, is not part of [reclaim.ts]. It reads the format above: the
    colon-delimited segments, the first of which is the slash-separated
    prefix of relay endpoint, network and channel. *)
Definition parse (s : string) : option RemoteViewAddress :=
  match split ":" s with
  | prefix :: c :: f :: a =>
      match split "/" prefix with
      | [r; n; ch] =>
          Some {| relayEndpoint := r; network := n; channel := ch;
                  contract := c; function := f; args := a |}
      | _ => None
      end
  | _ => None
  end.

(** No code unit of [s] is [c]. *)
Fixpoint free_of (c : ascii) (s : string) : bool :=
  match s with
  | EmptyString => true
  | String x s' => negb (Ascii.eqb x c) && free_of c s'
  end.

(** No field holds the delimiter [:]. *)
Definition delimiter_free (a : RemoteViewAddress) : bool :=
  forallb (free_of ":")
    (relayEndpoint a :: network a :: channel a :: contract a :: function a :: args a).

(** The fields of the prefix hold no slash, its separator. *)
Definition well_formed (a : RemoteViewAddress) : bool :=
  free_of "/" (relayEndpoint a) && free_of "/" (network a) && free_of "/" (channel a).

End AddressCodec.

(** ** Vocabulary of the statements *)

(** What [if (options.debug === 'true')] logs, at the start of [run]. *)
Definition debug_events (options : gmap string jsval) : list Event :=
  if strict_eq (get options "debug") (JStr "true")
  then [logger_level "debug"; logger_debug "Debugging is enabled"]
  else [].

(** [--help] or [-h] was given. *)
Definition help_requested (options : gmap string jsval) : bool :=
  truthy (get options "help") || truthy (get options "h").

(** The message for the first required option that is missing (absent or
    falsy), in the order of the checks of [run]. *)
Definition first_missing (options : gmap string jsval) : option string :=
  if negb (truthy (get options "source-network")) then
    Some "--source-network needs to be specified"
  else if negb (truthy (get options "user")) then
    Some "--user needs to be specified"
  else if negb (truthy (get options "type")) then
    Some "--type of network needs to be specified"
  else if negb (truthy (get options "param")) then
    Some "--param needs to be specified"
  else None.

(** The arguments that [run] gives to [reclaim] for the parameter [p]. *)
Definition reclaim_of (env : Env) (options : gmap string jsval) (p : string) : M unit :=
  reclaim env options (elem (split ":" p !! 0%nat)) (get options "type")
    (if strict_eq (get options "type") (JStr "token")
     then JNum (parseInt (elem (split ":" p !! 1%nat)))
     else elem (split ":" p !! 1%nat)).

(** The calls of [interopFlow] in a trace: the only step that contacts the
    relay and submits a transaction to the local ledger. *)
Definition flow_calls (t : list Event) : list InteropFlowArgs :=
  flat_map (fun e => match e with call_interopFlow a => [a] | _ => [] end) t.

(** The events that reach outside the process: the gateway, the wallet, the
    local ledger and the relay. *)
Definition is_io (e : Event) : bool :=
  match e with
  | call_fabricHelper _ | call_wallet_get _ _
  | call_getLocalAssetPledgeDetails _
  | call_getKeyAndCertForRemoteRequestbyUserName _ _
  | call_interopFlow _ => true
  | _ => false
  end.

(** The message of the check of the view address. *)
Definition invalid_destination (options : gmap string jsval) : string :=
  "Please use a valid --dest-network. No valid environment found for " ^^
  ToString (get options "dest-network") ^^ " ".

(** The messages printed with [print.error] in a trace. *)
Definition errors (t : list Event) : list string :=
  flat_map (fun e => match e with print_error m => [m] | _ => [] end) t.

(** What [console.log] and [process.exit(1)] leave behind for a category
    that is neither bond nor token: the message, then the end of the process
    with code 1. *)
Definition unrecognized_exit {A} (assetCategory : jsval) : M A :=
  ([console_log [LogValue (JStr "Unecognized asset category:"); LogValue assetCategory];
    process_exit (Some 1)],
   Halt (Some 1)).

(** The computation [m] after the events [t]. *)
Definition prefixed {A} (t : list Event) (m : M A) : M A :=
  (t ++ fst m, snd m).

(** The name of the remote function, by asset category, as the
    specification gives it. *)
Definition claimStatusFunction (assetCategory : jsval) : option string :=
  if strict_eq assetCategory (JStr "bond") then Some "GetAssetClaimStatus"
  else if strict_eq assetCategory (JStr "token") then Some "GetTokenAssetClaimStatus"
  else None.

(** The fields of the address that [getReclaimViewAddress] builds with the
    remote function [f]. *)
Definition claimStatusFields (cfg : NetworkConfig) (f : string)
    (assetType assetIdOrQuantity pledgeId pledgerCert sourceNetwork
     recipientCert destNetwork pledgeExpiryTimeSecs : jsval)
    : AddressCodec.RemoteViewAddress :=
  {| AddressCodec.relayEndpoint := ToString (relayEndpoint cfg);
     AddressCodec.network := ToString destNetwork;
     AddressCodec.channel := ToString (channelName cfg);
     AddressCodec.contract := ToString (chaincode cfg);
     AddressCodec.function := f;
     AddressCodec.args :=
       map ToString [pledgeId; assetType; assetIdOrQuantity; recipientCert;
                     pledgerCert; sourceNetwork; pledgeExpiryTimeSecs] |}.

(** ** The steps of [reclaim], named *)

(** The argument of [fabricHelper] in [run]. *)
Definition gateway_request (env : Env) (options : gmap string jsval)
    : FabricHelperArgs :=
  let netConfig := getNetworkConfig env (get options "source-network") in
  {| fh_channel := channelName netConfig;
     fh_contractName :=
       if truthy (DEFAULT_CHAINCODE env) then DEFAULT_CHAINCODE env
       else JStr "interop";
     fh_connProfilePath := connProfilePath netConfig;
     fh_networkName := get options "source-network";
     fh_mspId := mspId netConfig;
     fh_discoveryEnabled := true;
     fh_userString := get options "user" |}.

(** The argument of [getLocalAssetPledgeDetails] in [run]. *)
Definition pledge_query (options : gmap string jsval) (assetCategory : jsval)
    : PledgeQuery :=
  {| sourceNetworkName := get options "source-network";
     pledgeId := get options "pledge-id";
     caller := get options "user";
     ccType := assetCategory |}.

(** [relayTlsCAFiles]: [None] when the split throws. *)
Definition relayTlsCAFiles (options : gmap string jsval) : option (list string) :=
  if truthy (get options "relay-tls-ca-files") then
    match get options "relay-tls-ca-files" with
    | JStr s => Some (split ":" s)
    | _ => None
    end
  else Some [].

(** [invokeObject] *)
Definition invokeObject_of (env : Env) (options : gmap string jsval)
    (assetCategory : jsval) (pd : PledgeDetails) : InvokeObject :=
  let netConfig := getNetworkConfig env (get options "source-network") in
  {| channel := channelName netConfig;
     ccFunc := applicationFunction assetCategory;
     ccArgs := [get options "pledge-id"; JStr (getRecipient pd);
                JStr (getRemotenetworkid pd); JStr EmptyString];
     contractName := chaincode netConfig |}.

(** The arguments of [interopFlow] in [run]. *)
Definition flow_request (env : Env) (options : gmap string jsval)
    (assetCategory : jsval) (contract : Contract) (pd : PledgeDetails)
    (viewAddress : string) (keyCert : KeyCert) (replaceIndices : list Z)
    (files : list string) : InteropFlowArgs :=
  let netConfig := getNetworkConfig env (get options "source-network") in
  {| if_contract := contract;
     if_networkName := get options "source-network";
     if_invokeObject := invokeObject_of env options assetCategory pd;
     if_mspId := mspId netConfig;
     if_relayEndpoint := relayEndpoint netConfig;
     if_replaceIndices := replaceIndices;
     if_views := [{| address := viewAddress; Sign := true |}];
     if_keyCert := keyCert;
     if_returnWithoutLocalInvocation := false;
     if_useTls := strict_eq (get options "relay-tls") (JStr "true");
     if_tlsRootCACertPaths := files |}.

(** What the [catch] block reports. *)
Definition flow_failure (e : Exn) : list Event :=
  [spinner_fail "Error verifying and storing state";
   logger_error ("Error verifying and storing state: " ^^ Exn_toString e)].

(** The events of the [try] statement after the call of [interopFlow]. *)
Definition flow_report (env : Env) (a : InteropFlowArgs) : list Event :=
  match interopFlow env a with
  | inl e => flow_failure e
  | inr response =>
      match views response with
      | [] => flow_failure
                (TypeError "Cannot read properties of undefined (reading 'toObject')")
      | view0 :: _ =>
          logger_info
            ("View from remote network: " ^^ view_toObject_JSON env view0 ^^
             ". Interop Flow result: " ^^
             ToString (if truthy (result response) then result response
                       else JStr "successful"))
          :: match getResponseDataFromView env view0 with
             | inl e => flow_failure e
             | inr remoteValue =>
                 [spinner_succeed
                    ("Called Function " ^^ ccFunc (if_invokeObject a) ^^
                     ". With Args: " ^^ Array_toString (ccArgs (if_invokeObject a)) ^^
                     " " ^^ remoteValue)]
             end
      end
  end.

(** The kinds of events that reach outside the process. *)
Inductive IOKind : Type :=
| Gateway
| WalletRead
| PledgeLookup
| KeyCertRead
| InteropFlow.

Definition io_kinds (t : list Event) : list IOKind :=
  flat_map (fun e =>
              match e with
              | call_fabricHelper _ => [Gateway]
              | call_wallet_get _ _ => [WalletRead]
              | call_getLocalAssetPledgeDetails _ => [PledgeLookup]
              | call_getKeyAndCertForRemoteRequestbyUserName _ _ => [KeyCertRead]
              | call_interopFlow _ => [InteropFlow]
              | _ => []
              end) t.


(** The number of code units of [s] equal to [c]. *)
Fixpoint count_of (c : ascii) (s : string) : nat :=
  match s with
  | EmptyString => 0
  | String x s' => (if Ascii.eqb x c then 1 else 0) + count_of c s'
  end.

(** ** A test network, for the examples *)

Module Sample.

Definition network (relay : string) (profile : string) : NetworkConfig :=
  {| relayEndpoint := JStr relay;
     connProfilePath := JStr profile;
     channelName := JStr "mychannel";
     chaincode := JStr "simpleasset";
     mspId := JStr "Org1MSP" |}.

(** What [getNetworkConfig] answers for a network with no configuration. *)
Definition no_network : NetworkConfig :=
  {| relayEndpoint := JStr EmptyString;
     connProfilePath := JStr EmptyString;
     channelName := JStr EmptyString;
     chaincode := JStr EmptyString;
     mspId := JStr EmptyString |}.

(** Two configured networks, [network1] and [network2]. *)
Definition config (relay1 relay2 : string) (n : jsval) : NetworkConfig :=
  if strict_eq n (JStr "network1") then network relay1 "network1/connection.json"
  else if strict_eq n (JStr "network2") then network relay2 "network2/connection.json"
  else no_network.

(** The pledge record of pledge [p1]: to recipient [Ym9i], on network
    [remote], expiring at 1700000000. *)
Definition pledge (remote : string) : PledgeDetails :=
  {| getRecipient := "Ym9i";
     getRemotenetworkid := remote;
     getExpirytimesecs := 1700000000 |}.

(** An environment in which every helper succeeds, with the relay endpoints
    and the remote network of the pledge as given. *)
Definition env_with (relay1 relay2 remote : string) : Env :=
  {| getNetworkConfig := config relay1 relay2;
     DEFAULT_CHAINCODE := JUndefined;
     fabricHelper := fun _ => inr (WalletRef 0, ContractRef 0);
     wallet_get := fun _ _ => inr (Some "alice-certificate");
     Buffer_base64 := fun _ => "YWxpY2U=";
     getLocalAssetPledgeDetails := fun _ => inr (pledge remote);
     getKeyAndCertForRemoteRequestbyUserName :=
       fun _ _ => inr {| key := "alice-key"; cert := "alice-certificate" |};
     getChaincodeConfig := fun _ _ => inr [3];
     interopFlow := fun _ => inr {| views := [ViewRef 0]; result := JUndefined |};
     view_toObject_JSON := fun _ => "{}";
     getResponseDataFromView := fun _ => inr "false" |}.

(** The test network of the documentation: relays on ports 9080 and 9083. *)
Definition env : Env := env_with "localhost:9080" "localhost:9083" "network2".

(** The same, the pledge naming a network that is not configured. *)
Definition env_unknown_remote : Env :=
  env_with "localhost:9080" "localhost:9083" "network9".

(** The same as [env], with relay endpoints that hold no colon. *)
Definition env_plain_relays : Env := env_with "relay1" "relay2" "network2".

Definition options_of (l : list (string * jsval)) : gmap string jsval :=
  list_to_map l.

(** [reclaim --source-network=network1 --user=alice --type=bond
     --pledge-id=p1 --param=bond01:a03] *)
Definition bond_options : gmap string jsval :=
  options_of [("source-network", JStr "network1"); ("user", JStr "alice");
              ("type", JStr "bond"); ("pledge-id", JStr "p1");
              ("param", JStr "bond01:a03")].

(** [reclaim --source-network=network1 --user=alice --type=token
     --pledge-id=p1 --param=<param>] *)
Definition token_options (param : string) : gmap string jsval :=
  options_of [("source-network", JStr "network1"); ("user", JStr "alice");
              ("type", JStr "token"); ("pledge-id", JStr "p1");
              ("param", JStr param)].

End Sample.

(** Environments of the examples in which a helper fails. *)
Module Faults.

(** The test network, the relay being down. *)
Definition relay_down : Env :=
  {| getNetworkConfig := getNetworkConfig Sample.env;
     DEFAULT_CHAINCODE := DEFAULT_CHAINCODE Sample.env;
     fabricHelper := fabricHelper Sample.env;
     wallet_get := wallet_get Sample.env;
     Buffer_base64 := Buffer_base64 Sample.env;
     getLocalAssetPledgeDetails := getLocalAssetPledgeDetails Sample.env;
     getKeyAndCertForRemoteRequestbyUserName :=
       getKeyAndCertForRemoteRequestbyUserName Sample.env;
     getChaincodeConfig := getChaincodeConfig Sample.env;
     interopFlow := fun _ => inl (Error "relay unreachable");
     view_toObject_JSON := view_toObject_JSON Sample.env;
     getResponseDataFromView := getResponseDataFromView Sample.env |}.

(** The test network, the gateway of the source network being down. *)
Definition gateway_down : Env :=
  {| getNetworkConfig := getNetworkConfig Sample.env;
     DEFAULT_CHAINCODE := DEFAULT_CHAINCODE Sample.env;
     fabricHelper := fun _ => inl (Error "gateway unreachable");
     wallet_get := wallet_get Sample.env;
     Buffer_base64 := Buffer_base64 Sample.env;
     getLocalAssetPledgeDetails := getLocalAssetPledgeDetails Sample.env;
     getKeyAndCertForRemoteRequestbyUserName :=
       getKeyAndCertForRemoteRequestbyUserName Sample.env;
     getChaincodeConfig := getChaincodeConfig Sample.env;
     interopFlow := interopFlow Sample.env;
     view_toObject_JSON := view_toObject_JSON Sample.env;
     getResponseDataFromView := getResponseDataFromView Sample.env |}.

End Faults.

(** The call of the interop flow for the reclaim of the bond of the
    examples. *)
Definition sample_bond_flow : InteropFlowArgs :=
  flow_request Sample.env Sample.bond_options (JStr "bond") (ContractRef 0)
    (Sample.pledge "network2")
    "localhost:9083/network2/mychannel:simpleasset:GetAssetClaimStatus:p1:bond01:a03:Ym9i:YWxpY2U=:network1:1700000000"
    {| key := "alice-key"; cert := "alice-certificate" |} [3] [].

(** * Properties *)

(** ** Strings *)

Local Arguments String.append !s1 s2 : simpl nomatch.

Lemma append_assoc (s t u : string) : s ^^ t ^^ u = s ^^ (t ^^ u).
Proof. induction s as [|c s IH]; simpl; [reflexivity | now rewrite IH]. Qed.

Lemma append_empty_r (s : string) : s ^^ EmptyString = s.
Proof. induction s as [|c s IH]; simpl; [reflexivity | now rewrite IH]. Qed.

Lemma append_eq_empty (s t : string) :
  s ^^ t = EmptyString -> s = EmptyString /\ t = EmptyString.
Proof. destruct s; simpl; [auto | discriminate]. Qed.

Lemma split_not_nil (c : ascii) (s : string) : split c s <> [].
Proof.
  induction s as [|x s IH]; simpl; [discriminate |].
  destruct (Ascii.eqb x c); [discriminate |].
  destruct (split c s); discriminate.
Qed.

Lemma free_of_append (c : ascii) (s t : string) :
  AddressCodec.free_of c (s ^^ t) = AddressCodec.free_of c s && AddressCodec.free_of c t.
Proof.
  induction s as [|x s IH]; simpl; [reflexivity |].
  rewrite IH. now rewrite andb_assoc.
Qed.

(** A string free of the separator is one segment. *)
Lemma split_free (c : ascii) (s : string) :
  AddressCodec.free_of c s = true -> split c s = [s].
Proof.
  induction s as [|x s IH]; simpl; [reflexivity |].
  intros [Hx Hs]%andb_true_iff.
  apply negb_true_iff in Hx. rewrite Hx, (IH Hs). reflexivity.
Qed.

(** A separator-free prefix joins the first segment of what follows. *)
Lemma split_append_free (c : ascii) (s t : string) :
  AddressCodec.free_of c s = true ->
  split c (s ^^ t) =
  match split c t with
  | h :: r => (s ^^ h) :: r
  | [] => [s]
  end.
Proof.
  induction s as [|x s IH]; simpl.
  - intros _. destruct (split c t) eqn:E; [now apply split_not_nil in E | reflexivity].
  - intros [Hx Hs]%andb_true_iff.
    apply negb_true_iff in Hx. rewrite Hx, (IH Hs).
    destruct (split c t); reflexivity.
Qed.

(** Splitting distributes over a separator. *)
Lemma split_append_sep (c : ascii) (s u : string) :
  split c (s ^^ String c u) = split c s ++ split c u.
Proof.
  induction s as [|x s IH]; simpl.
  - now rewrite Ascii.eqb_refl.
  - destruct (Ascii.eqb x c); rewrite IH; [reflexivity |].
    destruct (split c s) eqn:E; [now apply split_not_nil in E | reflexivity].
Qed.

(** Splitting undoes joining, segment by segment: a separator inside a
    segment splits that segment too. *)
Lemma split_concat (c : ascii) (l : list string) :
  l <> [] ->
  split c (String.concat (String c EmptyString) l) = flat_map (split c) l.
Proof.
  induction l as [|s l IH]; [congruence | intros _].
  destruct l as [|t l]; simpl.
  - now rewrite app_nil_r.
  - change (String c EmptyString ^^ ?u) with (String c u).
    rewrite split_append_sep. f_equal. apply IH. discriminate.
Qed.

(** Segments free of the separator come back as they were. *)
Lemma split_concat_free (c : ascii) (l : list string) :
  l <> [] -> forallb (AddressCodec.free_of c) l = true ->
  split c (String.concat (String c EmptyString) l) = l.
Proof.
  intros Hl Hfree. rewrite split_concat by assumption. clear Hl.
  induction l as [|s l IH]; [reflexivity |].
  simpl in *. apply andb_true_iff in Hfree as [Hs Hfree].
  rewrite (split_free _ _ Hs), (IH Hfree). reflexivity.
Qed.

(** ** The address builder *)

Lemma strict_eq_JStr (v : jsval) (s : string) :
  strict_eq v (JStr s) = true <-> v = JStr s.
Proof.
  unfold strict_eq. destruct v as [| b | [| z] | s']; try apply bool_decide_eq_true.
  split; discriminate.
Qed.

Lemma strict_eq_JStr_false (v : jsval) (s : string) :
  strict_eq v (JStr s) = false <-> v <> JStr s.
Proof.
  rewrite <- strict_eq_JStr. destruct (strict_eq v (JStr s)); split; congruence.
Qed.

(** The builder, case by case: the empty address for an unresolved
    destination, else the address of the format for a known category, else
    the end of the process. *)
Lemma getReclaimViewAddress_cases (env : Env)
    (assetCategory assetType assetIdOrQuantity pledgeId pledgerCert
     sourceNetwork recipientCert destNetwork pledgeExpiryTimeSecs : jsval) :
  getReclaimViewAddress env assetCategory assetType assetIdOrQuantity pledgeId
    pledgerCert sourceNetwork recipientCert destNetwork pledgeExpiryTimeSecs =
  if unresolved (getNetworkConfig env destNetwork) then ret EmptyString
  else match claimStatusFunction assetCategory with
       | Some f =>
           ret (AddressCodec.build
                  (claimStatusFields (getNetworkConfig env destNetwork) f
                     assetType assetIdOrQuantity pledgeId pledgerCert
                     sourceNetwork recipientCert destNetwork pledgeExpiryTimeSecs))
       | None => unrecognized_exit assetCategory
       end.
Proof.
  unfold getReclaimViewAddress, claimStatusFunction.
  destruct (unresolved _); [reflexivity |].
  assert (Hjoin : forall p f,
    bind (ret (p ^^ f)) (fun address =>
      ret (address ^^ ":" ^^ ToString pledgeId ^^ ":" ^^ ToString assetType ^^ ":" ^^
           ToString assetIdOrQuantity ^^ ":" ^^ ToString recipientCert ^^ ":" ^^
           ToString pledgerCert ^^ ":" ^^ ToString sourceNetwork ^^ ":" ^^
           ToString pledgeExpiryTimeSecs)) =
    ret (p ^^ (f +:+ ":" +:+ ToString pledgeId +:+ ":" +:+ ToString assetType +:+ ":" +:+
       ToString assetIdOrQuantity +:+ ":" +:+ ToString recipientCert +:+ ":" +:+
       ToString pledgerCert +:+ ":" +:+ ToString sourceNetwork +:+ ":" +:+
       ToString pledgeExpiryTimeSecs))).
  { intros p f. unfold bind, ret. cbn [app]. now rewrite !append_assoc. }
  assert (Hbuild : forall f,
    AddressCodec.build
      (claimStatusFields (getNetworkConfig env destNetwork) f assetType
         assetIdOrQuantity pledgeId pledgerCert sourceNetwork recipientCert
         destNetwork pledgeExpiryTimeSecs) =
    (ToString (relayEndpoint (getNetworkConfig env destNetwork)) ^^ "/" ^^
     ToString destNetwork ^^ "/" ^^
     ToString (channelName (getNetworkConfig env destNetwork)) ^^ ":" ^^
     ToString (chaincode (getNetworkConfig env destNetwork)) ^^ ":") ^^
    (f +:+ ":" +:+ ToString pledgeId +:+ ":" +:+ ToString assetType +:+ ":" +:+
       ToString assetIdOrQuantity +:+ ":" +:+ ToString recipientCert +:+ ":" +:+
       ToString pledgerCert +:+ ":" +:+ ToString sourceNetwork +:+ ":" +:+
       ToString pledgeExpiryTimeSecs)).
  { intros f. unfold AddressCodec.build, claimStatusFields.
    cbn [AddressCodec.relayEndpoint AddressCodec.network AddressCodec.channel
         AddressCodec.contract AddressCodec.function AddressCodec.args
         String.concat map].
    now rewrite !append_assoc. }
  destruct (strict_eq assetCategory (JStr "bond")).
  - now rewrite Hjoin, Hbuild.
  - destruct (strict_eq assetCategory (JStr "token")).
    + now rewrite Hjoin, Hbuild.
    + reflexivity.
Qed.

(** An address of the format is never the empty string. *)
Lemma build_not_empty (a : AddressCodec.RemoteViewAddress) : AddressCodec.build a <> EmptyString.
Proof.
  unfold AddressCodec.build. intros H.
  apply append_eq_empty in H as [H _].
  apply append_eq_empty in H as [_ H]. discriminate.
Qed.

Lemma build_eqb_empty (a : AddressCodec.RemoteViewAddress) :
  String.eqb (AddressCodec.build a) EmptyString = false.
Proof. apply String.eqb_neq, build_not_empty. Qed.

(** The format, as one list of colon-delimited segments. *)
Lemma build_segments (a : AddressCodec.RemoteViewAddress) :
  AddressCodec.build a =
  String.concat ":"
    ((AddressCodec.relayEndpoint a ^^ "/" ^^ AddressCodec.network a ^^ "/" ^^ AddressCodec.channel a)
     :: AddressCodec.contract a :: AddressCodec.function a :: AddressCodec.args a).
Proof.
  unfold AddressCodec.build. simpl. now rewrite !append_assoc.
Qed.

(** C1 (as amended). For every call whose destination network is resolved,
    the function name of the address is chosen by the category: bond gives
    GetAssetClaimStatus, token gives GetTokenAssetClaimStatus, and for any
    other category the builder logs the category and ends the process with
    code 1, whatever the caller meant to do with the address. *)
Theorem function_name_by_category (env : Env)
    (assetCategory assetType assetIdOrQuantity pledgeId pledgerCert
     sourceNetwork recipientCert destNetwork pledgeExpiryTimeSecs : jsval) :
  unresolved (getNetworkConfig env destNetwork) = false ->
  let address_of c :=
    getReclaimViewAddress env c assetType assetIdOrQuantity pledgeId
      pledgerCert sourceNetwork recipientCert destNetwork pledgeExpiryTimeSecs in
  let fields f :=
    claimStatusFields (getNetworkConfig env destNetwork) f assetType
      assetIdOrQuantity pledgeId pledgerCert sourceNetwork recipientCert
      destNetwork pledgeExpiryTimeSecs in
  (assetCategory = JStr "bond" ->
   address_of assetCategory = ret (AddressCodec.build (fields "GetAssetClaimStatus"))) /\
  (assetCategory = JStr "token" ->
   address_of assetCategory = ret (AddressCodec.build (fields "GetTokenAssetClaimStatus"))) /\
  (assetCategory <> JStr "bond" -> assetCategory <> JStr "token" ->
   address_of assetCategory = unrecognized_exit assetCategory /\
   forall (B : Type) (k : string -> M B),
     bind (address_of assetCategory) k = unrecognized_exit assetCategory).
Proof.
  intros Hres address_of fields. subst address_of fields. cbv beta.
  rewrite getReclaimViewAddress_cases, Hres.
  split; [| split].
  - intros ->. reflexivity.
  - intros ->. reflexivity.
  - intros Hb Ht. unfold claimStatusFunction.
    apply strict_eq_JStr_false in Hb, Ht. rewrite Hb, Ht.
    split; [reflexivity | intros B k; reflexivity].
Qed.

(** C4. For a resolved destination network, every call either ends the
    process (a category that is neither bond nor token) or returns exactly
    [<relayEndpoint>/<network>/<channel>:<contract>:<function>:<arg1>:...:<arg7>]:
    the values are joined as they are, so that a colon inside a value is one
    more delimiter of the address. *)
Theorem address_format (env : Env)
    (assetCategory assetType assetIdOrQuantity pledgeId pledgerCert
     sourceNetwork recipientCert destNetwork pledgeExpiryTimeSecs : jsval) :
  unresolved (getNetworkConfig env destNetwork) = false ->
  let cfg := getNetworkConfig env destNetwork in
  let address :=
    getReclaimViewAddress env assetCategory assetType assetIdOrQuantity pledgeId
      pledgerCert sourceNetwork recipientCert destNetwork pledgeExpiryTimeSecs in
  match claimStatusFunction assetCategory with
  | None => outcome address = Halt (Some 1)
  | Some f =>
      let segments :=
        (ToString (relayEndpoint cfg) ^^ "/" ^^ ToString destNetwork ^^ "/" ^^
         ToString (channelName cfg))
        :: ToString (chaincode cfg) :: f
        :: map ToString [pledgeId; assetType; assetIdOrQuantity; recipientCert;
                         pledgerCert; sourceNetwork; pledgeExpiryTimeSecs] in
      address = ret (String.concat ":" segments) /\
      split ":" (String.concat ":" segments) = flat_map (split ":") segments
  end.
Proof.
  intros Hres cfg address. subst cfg address.
  rewrite getReclaimViewAddress_cases, Hres.
  destruct (claimStatusFunction assetCategory) as [f|]; [| reflexivity].
  cbv zeta. split.
  - now rewrite build_segments.
  - apply split_concat. discriminate.
Qed.

(** C6. For all fields, as the builder writes them, that hold no colon and
    whose relay endpoint, network and channel hold no slash, parsing the
    address that the builder returns gives back exactly these fields. *)
Theorem parse_build_roundtrip (env : Env)
    (assetCategory assetType assetIdOrQuantity pledgeId pledgerCert
     sourceNetwork recipientCert destNetwork pledgeExpiryTimeSecs : jsval)
    (f : string) :
  unresolved (getNetworkConfig env destNetwork) = false ->
  claimStatusFunction assetCategory = Some f ->
  let fields :=
    claimStatusFields (getNetworkConfig env destNetwork) f assetType
      assetIdOrQuantity pledgeId pledgerCert sourceNetwork recipientCert
      destNetwork pledgeExpiryTimeSecs in
  AddressCodec.delimiter_free fields = true ->
  AddressCodec.well_formed fields = true ->
  exists address,
    getReclaimViewAddress env assetCategory assetType assetIdOrQuantity pledgeId
      pledgerCert sourceNetwork recipientCert destNetwork pledgeExpiryTimeSecs
    = ret address /\
    AddressCodec.parse address = Some fields.
Proof.
  intros Hres Hf fields Hfree Hwf.
  exists (AddressCodec.build fields). split.
  - now rewrite getReclaimViewAddress_cases, Hres, Hf.
  - clear Hres Hf. generalize dependent fields. intros [r n ch c fn a].
    unfold AddressCodec.delimiter_free, AddressCodec.well_formed.
    cbn [AddressCodec.relayEndpoint AddressCodec.network AddressCodec.channel
         AddressCodec.contract AddressCodec.function AddressCodec.args].
    intros Hfree [[Hr Hn]%andb_true_iff Hch]%andb_true_iff.
    cbn [forallb] in Hfree.
    apply andb_true_iff in Hfree as [Hr' Hfree].
    apply andb_true_iff in Hfree as [Hn' Hfree].
    unfold AddressCodec.parse. rewrite build_segments.
    cbn [AddressCodec.relayEndpoint AddressCodec.network AddressCodec.channel
         AddressCodec.contract AddressCodec.function AddressCodec.args].
    rewrite split_concat_free; [| discriminate |].
    + rewrite !append_assoc.
      rewrite (split_append_free "/" r) by assumption.
      change ("/" ^^ (n ^^ ("/" ^^ ch))) with (String "/" (n ^^ String "/" ch)).
      cbn [split]. rewrite Ascii.eqb_refl.
      rewrite split_append_sep, (split_free _ _ Hn), (split_free _ _ Hch).
      cbn [app]. now rewrite append_empty_r.
    + cbn [forallb]. rewrite !free_of_append, Hr', Hn'.
      apply andb_true_iff in Hfree as [Hch' Hfree]. now rewrite Hch', Hfree.
Qed.

(** C7 (as amended). The result of the builder is a function of its
    arguments and of the configuration of the destination network alone. It
    performs no effect when that network is unresolved or the category is
    bond or token; for any other category, with a resolved destination, it
    writes to the console and ends the process with code 1. *)
Theorem builder_effects (env1 env2 : Env)
    (assetCategory assetType assetIdOrQuantity pledgeId pledgerCert
     sourceNetwork recipientCert destNetwork pledgeExpiryTimeSecs : jsval) :
  getNetworkConfig env1 destNetwork = getNetworkConfig env2 destNetwork ->
  let address env :=
    getReclaimViewAddress env assetCategory assetType assetIdOrQuantity pledgeId
      pledgerCert sourceNetwork recipientCert destNetwork pledgeExpiryTimeSecs in
  address env1 = address env2 /\
  (unresolved (getNetworkConfig env1 destNetwork) = true \/
   claimStatusFunction assetCategory <> None ->
   trace (address env1) = []) /\
  (unresolved (getNetworkConfig env1 destNetwork) = false ->
   claimStatusFunction assetCategory = None ->
   address env1 = unrecognized_exit assetCategory).
Proof.
  intros Hcfg address. subst address. cbv beta.
  rewrite !getReclaimViewAddress_cases, <- Hcfg.
  split; [reflexivity |]. split.
  - intros H. destruct (unresolved _); [reflexivity |].
    destruct (claimStatusFunction assetCategory); [reflexivity |].
    destruct H; congruence.
  - intros -> ->. reflexivity.
Qed.

(** ** The checks of the options *)

Lemma bind_prefixed {A B} (t : list Event) (a : A) (k : A -> M B) :
  bind (t, Val a) k = prefixed t (k a).
Proof. unfold bind, prefixed. now destruct (k a). Qed.

Lemma prefixed_nil {A} (m : M A) : prefixed [] m = m.
Proof. now destruct m. Qed.

Lemma bind_ret {A B} (a : A) (k : A -> M B) : bind (ret a) k = k a.
Proof. unfold ret. now rewrite bind_prefixed, prefixed_nil. Qed.

(** [run] as a list of decisions: help, the four required options, the
    shape of [--param], then [reclaim]. The second check of the missing
    segment has no case of its own: the first one has returned already. *)
Lemma run_unfold (env : Env) (options : gmap string jsval) :
  run env options =
  if help_requested options then emit commandHelp
  else
    prefixed (debug_events options)
      (if negb (truthy (get options "source-network")) then
         emit (print_error "--source-network needs to be specified")
       else if negb (truthy (get options "user")) then
         emit (print_error "--user needs to be specified")
       else if negb (truthy (get options "type")) then
         emit (print_error "--type of network needs to be specified")
       else if negb (truthy (get options "param")) then
         emit (print_error "--param needs to be specified")
       else
         match get options "param" with
         | JStr p =>
             let params := split ":" p in
             if negb (truthy (elem (params !! 1%nat))) then
               emit (print_error assetId_needed)
             else if strict_eq (get options "type") (JStr "token")
                     && isNaN (parseInt (elem (params !! 1%nat))) then
               emit (print_error num_of_units_integer)
             else
               reclaim env options (elem (params !! 0%nat)) (get options "type")
                 (if strict_eq (get options "type") (JStr "token")
                  then JNum (parseInt (elem (params !! 1%nat)))
                  else elem (params !! 1%nat))
         | _ => throw (TypeError "split is not a function")
         end).
Proof.
  unfold run, help_requested.
  destruct (truthy (get options "help") || truthy (get options "h")); [reflexivity |].
  assert (Hdbg :
    (if strict_eq (get options "debug") (JStr "true")
     then bind (emit (logger_level "debug"))
            (fun _ => emit (logger_debug "Debugging is enabled"))
     else ret tt) = (debug_events options, Val tt)).
  { unfold debug_events. now destruct (strict_eq _ _). }
  rewrite Hdbg, bind_prefixed. f_equal.
  destruct (truthy (get options "source-network")); [| reflexivity].
  destruct (truthy (get options "user")); [| reflexivity].
  destruct (truthy (get options "type")) eqn:Htype; [| reflexivity].
  destruct (truthy (get options "param")); [| reflexivity].
  cbn [negb andb].
  destruct (get options "param") as [| b | n | p]; try reflexivity.
  unfold split_colons. rewrite bind_ret.
  destruct (truthy (elem (split ":" p !! 1%nat))); reflexivity.
Qed.

Lemma first_missing_None (options : gmap string jsval) :
  first_missing options = None <->
  truthy (get options "source-network") = true /\
  truthy (get options "user") = true /\
  truthy (get options "type") = true /\
  truthy (get options "param") = true.
Proof.
  unfold first_missing.
  destruct (truthy (get options "source-network")),
    (truthy (get options "user")), (truthy (get options "type")),
    (truthy (get options "param")); cbn; intuition congruence.
Qed.

(** C8 (as amended). For every invocation that does not ask for help and
    misses, or gives an empty value to, one of the options source-network,
    user, type and param, the command prints the message of the first such
    option and returns: besides the debug log, the error message is its only
    event, so the gateway, the wallet, the ledger and the relay are not
    reached. *)
Theorem missing_required_option (env : Env) (options : gmap string jsval) :
  help_requested options = false ->
  truthy (get options "source-network") = false \/
  truthy (get options "user") = false \/
  truthy (get options "type") = false \/
  truthy (get options "param") = false ->
  exists msg,
    first_missing options = Some msg /\
    run env options = (debug_events options ++ [print_error msg], Val tt) /\
    existsb is_io (trace (run env options)) = false.
Proof.
  intros Hhelp Hmiss.
  destruct (first_missing options) as [msg|] eqn:Hfirst.
  - exists msg. split; [reflexivity |].
    assert (Hrun : run env options = (debug_events options ++ [print_error msg], Val tt)).
    { rewrite run_unfold, Hhelp. unfold first_missing in Hfirst.
      destruct (negb (truthy (get options "source-network")));
        [injection Hfirst as <-; reflexivity |].
      destruct (negb (truthy (get options "user")));
        [injection Hfirst as <-; reflexivity |].
      destruct (negb (truthy (get options "type")));
        [injection Hfirst as <-; reflexivity |].
      destruct (negb (truthy (get options "param")));
        [injection Hfirst as <-; reflexivity | discriminate]. }
    split; [exact Hrun |].
    rewrite Hrun. unfold trace, fst, debug_events.
    now destruct (strict_eq _ _).
  - apply first_missing_None in Hfirst. intuition congruence.
Qed.

(** ** The rest of the command *)

(** One step of a case analysis of [reclaim]: the cases of the builder, then
    the innermost test or match that stands in the way. *)
Ltac reclaim_step :=
  first
    [ rewrite getReclaimViewAddress_cases
    | rewrite build_eqb_empty
    | rewrite String.eqb_refl
    | rewrite bind_ret
    | progress cbv beta iota zeta delta
        [bind ret emit call throw exit try_catch handlePromise invoke_flow
         split_colons unrecognized_exit prefixed fst snd]
    | match goal with
      | |- context [match ?x with _ => _ end] =>
          lazymatch x with
          | context [match _ with _ => _ end] => fail
          | _ => destruct x eqn:?
          end
      end ].

Ltac reclaim_cases := unfold reclaim; repeat reclaim_step.

(** The events of a hypothesis [In e t], one by one. *)
Ltac in_cases H :=
  repeat match type of H with
         | _ \/ _ => destruct H as [H | H]
         | False => contradiction
         end.

(** The three messages that [reclaim] may print. *)
Lemma reclaim_errors (env : Env) (options : gmap string jsval)
    (assetType assetCategory assetIdOrQuantity : jsval) (m : string) :
  In m (errors (trace (reclaim env options assetType assetCategory assetIdOrQuantity))) ->
  (exists s, m = "Please use a valid --source-network. No valid environment found for " ^^ s ^^ " ")
  \/ (exists s, m = "Please use a valid --dest-network. No valid environment found for " ^^ s ^^ " ")
  \/ (exists s, m = "Error getting key and cert " ^^ s).
Proof.
  reclaim_cases.
  all: cbn [errors trace fst flat_map app In]; intros H.
  all: in_cases H; subst m; eauto.
Qed.

(** What a call of [interopFlow] by [reclaim] looks like, and what came
    before it. *)
Lemma reclaim_flow (env : Env) (options : gmap string jsval)
    (assetType assetCategory assetIdOrQuantity : jsval) (a : InteropFlowArgs) :
  In (call_interopFlow a)
     (trace (reclaim env options assetType assetCategory assetIdOrQuantity)) ->
  let source := getNetworkConfig env (get options "source-network") in
  exists wallet contract certificate pd f,
    fabricHelper env
      {| fh_channel := channelName source;
         fh_contractName :=
           if truthy (DEFAULT_CHAINCODE env) then DEFAULT_CHAINCODE env
           else JStr "interop";
         fh_connProfilePath := connProfilePath source;
         fh_networkName := get options "source-network";
         fh_mspId := mspId source;
         fh_discoveryEnabled := true;
         fh_userString := get options "user" |} = inr (wallet, contract) /\
    wallet_get env wallet (get options "user") = inr (Some certificate) /\
    getLocalAssetPledgeDetails env
      {| sourceNetworkName := get options "source-network";
         pledgeId := get options "pledge-id";
         caller := get options "user";
         ccType := assetCategory |} = inr pd /\
    unresolved (getNetworkConfig env (JStr (getRemotenetworkid pd))) = false /\
    claimStatusFunction assetCategory = Some f /\
    if_views a =
      [{| address :=
            AddressCodec.build
              (claimStatusFields (getNetworkConfig env (JStr (getRemotenetworkid pd)))
                 f assetType assetIdOrQuantity (get options "pledge-id")
                 (JStr (Buffer_base64 env certificate))
                 (get options "source-network")
                 (JStr (getRecipient pd)) (JStr (getRemotenetworkid pd))
                 (JNum (Int (getExpirytimesecs pd))));
          Sign := true |}] /\
    if_invokeObject a =
      {| channel := channelName source;
         ccFunc := applicationFunction assetCategory;
         ccArgs := [get options "pledge-id"; JStr (getRecipient pd);
                    JStr (getRemotenetworkid pd); JStr EmptyString];
         contractName := chaincode source |} /\
    if_contract a = contract /\
    if_networkName a = get options "source-network" /\
    if_relayEndpoint a = relayEndpoint source /\
    if_returnWithoutLocalInvocation a = false.
Proof.
  intros H source. subst source. revert H.
  reclaim_cases.
  all: cbn [trace fst app In]; intros H.
  all: in_cases H; try discriminate H.
  all: injection H as <-; cbn [if_views if_invokeObject if_contract if_networkName
         if_relayEndpoint if_returnWithoutLocalInvocation].
  all: do 5 eexists; repeat (split; [eassumption || reflexivity |]); reflexivity.
Qed.

Lemma errors_debug (options : gmap string jsval) (t : list Event) :
  errors (debug_events options ++ t) = errors t.
Proof. unfold debug_events. now destruct (strict_eq _ _). Qed.

Lemma flow_calls_debug (options : gmap string jsval) (t : list Event) :
  flow_calls (debug_events options ++ t) = flow_calls t.
Proof. unfold debug_events. now destruct (strict_eq _ _). Qed.

Lemma io_debug (options : gmap string jsval) (e : Event) :
  In e (debug_events options) -> is_io e = false.
Proof.
  unfold debug_events. destruct (strict_eq _ _); cbn [In]; intros H;
    in_cases H; now subst e.
Qed.

(** An invocation that reaches the gateway, the wallet, the ledger or the
    relay has passed every check of the options, and does so in [reclaim]. *)
Lemma run_io (env : Env) (options : gmap string jsval) (e : Event) :
  In e (trace (run env options)) -> is_io e = true ->
  exists p,
    help_requested options = false /\
    first_missing options = None /\
    get options "param" = JStr p /\
    truthy (elem (split ":" p !! 1%nat)) = true /\
    run env options = prefixed (debug_events options) (reclaim_of env options p) /\
    In e (trace (reclaim_of env options p)).
Proof.
  rewrite run_unfold. unfold first_missing, reclaim_of.
  destruct (help_requested options).
  { cbn. intros [<- | []]. discriminate. }
  assert (Hstop : forall msg,
    In e (trace (prefixed (debug_events options) (emit (print_error msg)))) ->
    is_io e = true -> False).
  { intros msg [H | H]%in_app_iff Hio.
    - apply io_debug in H. congruence.
    - cbn in H. destruct H as [<- | []]. discriminate. }
  destruct (negb (truthy (get options "source-network"))); [intros; exfalso; eauto |].
  destruct (negb (truthy (get options "user"))); [intros; exfalso; eauto |].
  destruct (negb (truthy (get options "type"))); [intros; exfalso; eauto |].
  destruct (negb (truthy (get options "param"))); [intros; exfalso; eauto |].
  destruct (get options "param") as [| b | n | p].
  1-3: intros [H | H]%in_app_iff Hio;
         [apply io_debug in H; congruence | destruct H].
  cbv zeta.
  destruct (truthy (elem (split ":" p !! 1%nat))) eqn:Hq; cbn [negb];
    [| intros; exfalso; eauto].
  destruct (strict_eq (get options "type") (JStr "token")
            && isNaN (parseInt (elem (split ":" p !! 1%nat))));
    [intros; exfalso; eauto |].
  intros [H | H]%in_app_iff Hio.
  - apply io_debug in H. congruence.
  - exists p. repeat (split; [reflexivity || assumption |]). exact H.
Qed.

(** [reclaim] when the pledge names a destination that is not resolved: the
    gateway, the wallet and the pledge record have been read, and the error
    message is the last event. *)
Lemma reclaim_unresolved_destination (env : Env) (options : gmap string jsval)
    (assetType assetCategory assetIdOrQuantity : jsval)
    (q : PledgeQuery) (pd : PledgeDetails) :
  In (call_getLocalAssetPledgeDetails q)
     (trace (reclaim env options assetType assetCategory assetIdOrQuantity)) ->
  getLocalAssetPledgeDetails env q = inr pd ->
  unresolved (getNetworkConfig env (JStr (getRemotenetworkid pd))) = true ->
  exists fh wallet,
    reclaim env options assetType assetCategory assetIdOrQuantity =
    ([call_fabricHelper fh; call_wallet_get wallet (get options "user");
      call_getLocalAssetPledgeDetails q;
      print_error (invalid_destination options)],
     Val tt).
Proof.
  unfold invalid_destination. reclaim_cases.
  all: cbn [trace fst app In]; intros H Hpd Hdest.
  all: in_cases H; try discriminate H.
  all: injection H as <-; try congruence.
  all: do 2 eexists; reflexivity.
Qed.

(** C2. A destination network whose configuration lacks the connection
    profile path, the channel name or the chaincode name gets the empty
    address from the builder; and the command, once it has read a pledge
    record that names such a network, prints the invalid-destination error
    and returns: it never calls the interop flow, which is the step that
    contacts the relay and invokes the local ledger. *)
Theorem unresolved_destination_aborts :
  (forall (env : Env)
     (assetCategory assetType assetIdOrQuantity pledgeId pledgerCert
      sourceNetwork recipientCert destNetwork pledgeExpiryTimeSecs : jsval),
     let cfg := getNetworkConfig env destNetwork in
     truthy (connProfilePath cfg) = false \/ truthy (channelName cfg) = false \/
     truthy (chaincode cfg) = false ->
     getReclaimViewAddress env assetCategory assetType assetIdOrQuantity pledgeId
       pledgerCert sourceNetwork recipientCert destNetwork pledgeExpiryTimeSecs
     = ret EmptyString) /\
  (forall (env : Env) (options : gmap string jsval)
     (q : PledgeQuery) (pd : PledgeDetails),
     let cfg := getNetworkConfig env (JStr (getRemotenetworkid pd)) in
     In (call_getLocalAssetPledgeDetails q) (trace (run env options)) ->
     getLocalAssetPledgeDetails env q = inr pd ->
     truthy (connProfilePath cfg) = false \/ truthy (channelName cfg) = false \/
     truthy (chaincode cfg) = false ->
     outcome (run env options) = Val tt /\
     last (trace (run env options)) =
       Some (print_error (invalid_destination options)) /\
     errors (trace (run env options)) = [invalid_destination options] /\
     flow_calls (trace (run env options)) = []).
Proof.
  assert (Hunres : forall cfg,
    truthy (connProfilePath cfg) = false \/ truthy (channelName cfg) = false \/
    truthy (chaincode cfg) = false -> unresolved cfg = true).
  { intros cfg. unfold unresolved.
    destruct (truthy (connProfilePath cfg)), (truthy (channelName cfg)),
      (truthy (chaincode cfg)); cbn; intuition congruence. }
  split.
  - intros env cat ty qty pid pc src rc dest ex cfg Hlack. subst cfg.
    rewrite getReclaimViewAddress_cases. now rewrite (Hunres _ Hlack).
  - intros env options q pd cfg Hin Hpd Hlack. subst cfg.
    apply Hunres in Hlack.
    destruct (run_io _ _ _ Hin eq_refl) as (p & _ & _ & _ & _ & Hrun & Hin').
    destruct (reclaim_unresolved_destination _ _ _ _ _ _ _ Hin' Hpd Hlack)
      as (fh & w & Hreclaim).
    rewrite Hrun. unfold reclaim_of in *. rewrite Hreclaim.
    unfold prefixed, outcome, trace. cbn [fst snd].
    rewrite errors_debug, flow_calls_debug.
    repeat (split; [reflexivity |]).
    split; [| split; reflexivity].
    now rewrite last_app_cons.
Qed.

(** C5. Every call of the interop flow by the reclaim command carries one
    view address, built for the claim-status function of the category
    (GetAssetClaimStatus for bond, GetTokenAssetClaimStatus for token) on
    the network that the pledge record names as remote, and a local
    invocation of ReclaimTokenAsset when the category is token and of
    ReclaimAsset otherwise, on the channel and the chaincode of the source
    network, through the contract of the source network's gateway. *)
Theorem reclaim_flow_shape (env : Env) (options : gmap string jsval)
    (a : InteropFlowArgs) :
  In (call_interopFlow a) (trace (run env options)) ->
  let source := getNetworkConfig env (get options "source-network") in
  exists (fields : AddressCodec.RemoteViewAddress) (pd : PledgeDetails)
         (fh : FabricHelperArgs) (wallet : Wallet),
    if_views a = [{| address := AddressCodec.build fields; Sign := true |}] /\
    claimStatusFunction (get options "type") = Some (AddressCodec.function fields) /\
    getLocalAssetPledgeDetails env
      {| sourceNetworkName := get options "source-network";
         pledgeId := get options "pledge-id";
         caller := get options "user";
         ccType := get options "type" |} = inr pd /\
    AddressCodec.network fields = getRemotenetworkid pd /\
    AddressCodec.relayEndpoint fields =
      ToString (relayEndpoint (getNetworkConfig env (JStr (getRemotenetworkid pd)))) /\
    ccFunc (if_invokeObject a) =
      (if strict_eq (get options "type") (JStr "token")
       then "ReclaimTokenAsset" else "ReclaimAsset") /\
    channel (if_invokeObject a) = channelName source /\
    contractName (if_invokeObject a) = chaincode source /\
    if_networkName a = get options "source-network" /\
    fh_networkName fh = get options "source-network" /\
    fabricHelper env fh = inr (wallet, if_contract a) /\
    if_returnWithoutLocalInvocation a = false.
Proof.
  intros Hin source. subst source.
  destruct (run_io _ _ _ Hin eq_refl) as (p & _ & _ & _ & _ & _ & Hin').
  apply reclaim_flow in Hin'.
  destruct Hin' as (w & c & certificate & pd & f & Hfh & _ & Hpd & _ & Hf
                    & Hviews & Hinv & Hc & Hnet & _ & Hlocal).
  match type of Hfh with fabricHelper _ ?fh = _ => eexists _, pd, fh, w end.
  split; [exact Hviews |].
  split; [exact Hf |].
  split; [exact Hpd |].
  rewrite Hinv, Hnet, Hlocal, Hc.
  repeat (split; [reflexivity |]).
  split; [exact Hfh | reflexivity].
Qed.

(** [run] past the checks of the required options, for a string [--param]. *)
Lemma run_param (env : Env) (options : gmap string jsval) (p : string) :
  help_requested options = false ->
  first_missing options = None ->
  get options "param" = JStr p ->
  run env options =
  prefixed (debug_events options)
    (if negb (truthy (elem (split ":" p !! 1%nat))) then
       emit (print_error assetId_needed)
     else if strict_eq (get options "type") (JStr "token")
             && isNaN (parseInt (elem (split ":" p !! 1%nat))) then
       emit (print_error num_of_units_integer)
     else reclaim_of env options p).
Proof.
  intros Hhelp (Hs & Hu & Ht & Hp)%first_missing_None Hparam.
  rewrite run_unfold, Hhelp, Hs, Hu, Ht, Hp, Hparam. reflexivity.
Qed.

(** C9. No invocation prints that the number of units needs to be specified
    for the token type: the check that would print it repeats the condition
    of the check before it, which has returned by then. So an invocation
    whose parameter has no second segment (or an empty one) is answered, once
    the required options are there, with the message about the asset id of a
    bond, whatever the category. *)
Theorem num_of_units_needed_never_printed :
  (forall (env : Env) (options : gmap string jsval),
     ~ In num_of_units_needed (errors (trace (run env options)))) /\
  (forall (env : Env) (options : gmap string jsval) (p : string),
     help_requested options = false ->
     first_missing options = None ->
     get options "param" = JStr p ->
     truthy (elem (split ":" p !! 1%nat)) = false ->
     run env options = (debug_events options ++ [print_error assetId_needed], Val tt)).
Proof.
  split.
  - intros env options. rewrite run_unfold.
    destruct (help_requested options); [cbn; intuition discriminate |].
    unfold prefixed, trace. cbn [fst]. rewrite errors_debug.
    assert (Hone : forall msg,
      msg <> num_of_units_needed ->
      ~ In num_of_units_needed (errors (emit (print_error msg)).1)).
    { intros msg Hmsg [H | []]. congruence. }
    destruct (negb (truthy (get options "source-network")));
      [apply Hone; discriminate |].
    destruct (negb (truthy (get options "user"))); [apply Hone; discriminate |].
    destruct (negb (truthy (get options "type"))); [apply Hone; discriminate |].
    destruct (negb (truthy (get options "param"))); [apply Hone; discriminate |].
    destruct (get options "param") as [| b | n | p]; try (intros []).
    cbv zeta.
    destruct (negb (truthy (elem (split ":" p !! 1%nat))));
      [apply Hone; discriminate |].
    destruct (strict_eq (get options "type") (JStr "token")
              && isNaN (parseInt (elem (split ":" p !! 1%nat))));
      [apply Hone; discriminate |].
    intros H. apply reclaim_errors in H.
    destruct H as [[s H] | [[s H] | [s H]]]; cbv in H; discriminate H.
  - intros env options p Hhelp Hfirst Hparam Hq.
    rewrite (run_param _ _ _ Hhelp Hfirst Hparam), Hq. reflexivity.
Qed.

(** C3 (as amended). When the category is token, the second segment of the
    parameter must parse, with [parseInt], as an integer: a missing segment
    and one that does not parse are answered with an error message and
    nothing else, while one that parses goes on to [reclaim] with the parsed
    integer as the quantity, whatever its sign. *)
Theorem token_quantity_check (env : Env) (options : gmap string jsval) (p : string) :
  help_requested options = false ->
  first_missing options = None ->
  get options "type" = JStr "token" ->
  get options "param" = JStr p ->
  let quantity := elem (split ":" p !! 1%nat) in
  (truthy quantity = false ->
   run env options = (debug_events options ++ [print_error assetId_needed], Val tt)) /\
  (truthy quantity = true -> parseInt quantity = NaN ->
   run env options =
   (debug_events options ++ [print_error num_of_units_integer], Val tt)) /\
  (forall n : Z,
     truthy quantity = true -> parseInt quantity = Int n ->
     run env options =
     prefixed (debug_events options)
       (reclaim env options (elem (split ":" p !! 0%nat)) (JStr "token")
          (JNum (Int n)))).
Proof.
  intros Hhelp Hfirst Htype Hparam quantity. subst quantity.
  rewrite (run_param _ _ _ Hhelp Hfirst Hparam). unfold reclaim_of.
  rewrite Htype. change (strict_eq (JStr "token") (JStr "token")) with true.
  split; [| split].
  - intros ->. reflexivity.
  - intros -> ->. reflexivity.
  - intros n -> ->. reflexivity.
Qed.

(** ** The pledge record is the source of the destination *)

(** What the flow takes from the pledge record looked up by the pledge id:
    the destination network, the recipient and the expiry of the view
    address, and the recipient and the remote network of the local
    invocation. *)
Lemma flow_uses_pledge_record (env : Env) (options : gmap string jsval)
    (a : InteropFlowArgs) :
  In (call_interopFlow a) (trace (run env options)) ->
  exists (pd : PledgeDetails) (f : string)
         (assetType assetIdOrQuantity pledgerCert : jsval),
    getLocalAssetPledgeDetails env
      {| sourceNetworkName := get options "source-network";
         pledgeId := get options "pledge-id";
         caller := get options "user";
         ccType := get options "type" |} = inr pd /\
    if_views a =
      [{| address :=
            AddressCodec.build
              (claimStatusFields (getNetworkConfig env (JStr (getRemotenetworkid pd)))
                 f assetType assetIdOrQuantity (get options "pledge-id")
                 pledgerCert (get options "source-network")
                 (JStr (getRecipient pd)) (JStr (getRemotenetworkid pd))
                 (JNum (Int (getExpirytimesecs pd))));
          Sign := true |}] /\
    ccArgs (if_invokeObject a) =
      [get options "pledge-id"; JStr (getRecipient pd);
       JStr (getRemotenetworkid pd); JStr EmptyString].
Proof.
  intros Hin.
  destruct (run_io _ _ _ Hin eq_refl) as (p & _ & _ & _ & _ & _ & Hin').
  apply reclaim_flow in Hin'.
  destruct Hin' as (w & c & certificate & pd & f & _ & _ & Hpd & _ & _
                    & Hviews & Hinv & _).
  exists pd, f. do 3 eexists.
  split; [exact Hpd |]. split; [exact Hviews |]. now rewrite Hinv.
Qed.

Lemma get_insert_other (options : gmap string jsval) (k k' : string) (v : jsval) :
  k <> k' -> get (<[k := v]> options) k' = get options k'.
Proof. intros Hk. unfold get. now rewrite lookup_insert_ne. Qed.

(** Every option but dest-network reads the same with and without a value
    for dest-network. *)
Ltac forget_dest_network :=
  repeat match goal with
         | |- context [get (<["dest-network" := ?v]> ?o) ?k] =>
             lazymatch k with
             | "dest-network" => fail
             | _ => rewrite (get_insert_other o "dest-network" k v) by discriminate
             end
         end.

(** The option dest-network changes neither the calls of the interop flow
    nor the outcome of the command: it is read for the text of the error
    message alone. *)
Lemma dest_network_option_not_used_by_flow (env : Env)
    (options : gmap string jsval) (v : jsval) :
  let r1 := run env (<["dest-network" := v]> options) in
  let r2 := run env options in
  flow_calls (trace r1) = flow_calls (trace r2) /\ outcome r1 = outcome r2.
Proof.
  cbv zeta. rewrite !run_unfold.
  unfold help_requested, debug_events, reclaim_of. forget_dest_network.
  fold (debug_events options).
  destruct (truthy (get options "help") || truthy (get options "h"));
    [split; reflexivity |].
  unfold prefixed, trace, outcome. cbn [fst snd].
  destruct (negb (truthy (get options "source-network"))); [split; reflexivity |].
  destruct (negb (truthy (get options "user"))); [split; reflexivity |].
  destruct (negb (truthy (get options "type"))); [split; reflexivity |].
  destruct (negb (truthy (get options "param"))); [split; reflexivity |].
  destruct (get options "param") as [| b | n | p]; try (split; reflexivity).
  cbv zeta.
  destruct (negb (truthy (elem (split ":" p !! 1%nat)))); [split; reflexivity |].
  destruct (strict_eq (get options "type") (JStr "token")
            && isNaN (parseInt (elem (split ":" p !! 1%nat))));
    [split; reflexivity |].
  rewrite !flow_calls_debug.
  generalize (elem (split ":" p !! 0%nat)) as assetType.
  generalize (if strict_eq (get options "type") (JStr "token")
              then JNum (parseInt (elem (split ":" p !! 1%nat)))
              else elem (split ":" p !! 1%nat)) as assetIdOrQuantity.
  intros assetIdOrQuantity assetType.
  unfold reclaim. forget_dest_network.
  generalize (get (<["dest-network" := v]> options) "dest-network") as d1.
  generalize (get options "dest-network") as d2. intros d2 d1.
  repeat reclaim_step.
  all: split; reflexivity.
Qed.

(** C10 (what the code does). The option dest-network, which the command
    does not document, is read all the same: when the pledge names a network
    with no configuration, the error message prints the value of the option,
    [undefined] when it is absent. *)
Theorem dest_network_option_read :
  errors (trace (run Sample.env_unknown_remote Sample.bond_options)) =
    ["Please use a valid --dest-network. No valid environment found for undefined "] /\
  errors (trace (run Sample.env_unknown_remote
                   (<["dest-network" := JStr "network2"]> Sample.bond_options))) =
    ["Please use a valid --dest-network. No valid environment found for network2 "].
Proof. split; vm_compute; reflexivity. Qed.

(** ** Examples *)

(** C1, as first stated, fails: a category that is neither bond nor token
    gets the empty address, not the end of the process, when the destination
    network is not resolved. *)
Lemma unrecognized_category_unresolved_destination :
  claimStatusFunction (JStr "nft") = None /\
  getReclaimViewAddress Sample.env (JStr "nft") (JStr "bond01") (JStr "a03")
    (JStr "p1") (JStr "YWxpY2U=") (JStr "network1") (JStr "Ym9i")
    (JStr "network9") (JNum (Int 1700000000))
  = ([], Val EmptyString).
Proof. split; reflexivity. Qed.

(** The category token, on the test network. *)
Lemma function_name_by_category_witness :
  unresolved (getNetworkConfig Sample.env (JStr "network2")) = false /\
  getReclaimViewAddress Sample.env (JStr "token") (JStr "token1") (JNum (Int 50))
    (JStr "p1") (JStr "YWxpY2U=") (JStr "network1") (JStr "Ym9i")
    (JStr "network2") (JNum (Int 1700000000))
  = ret (AddressCodec.build
           (claimStatusFields (getNetworkConfig Sample.env (JStr "network2"))
              "GetTokenAssetClaimStatus" (JStr "token1") (JNum (Int 50))
              (JStr "p1") (JStr "YWxpY2U=") (JStr "network1") (JStr "Ym9i")
              (JStr "network2") (JNum (Int 1700000000)))).
Proof.
  split; [reflexivity |].
  apply (function_name_by_category Sample.env (JStr "token") (JStr "token1")
           (JNum (Int 50)) (JStr "p1") (JStr "YWxpY2U=") (JStr "network1")
           (JStr "Ym9i") (JStr "network2") (JNum (Int 1700000000)) eq_refl).
  reflexivity.
Defined.

(** The address of a bond, on the test network, character by character. *)
Lemma address_format_witness :
  unresolved (getNetworkConfig Sample.env (JStr "network2")) = false /\
  getReclaimViewAddress Sample.env (JStr "bond") (JStr "bond01") (JStr "a03")
    (JStr "p1") (JStr "YWxpY2U=") (JStr "network1") (JStr "Ym9i")
    (JStr "network2") (JNum (Int 1700000000))
  = ret "localhost:9083/network2/mychannel:simpleasset:GetAssetClaimStatus:p1:bond01:a03:Ym9i:YWxpY2U=:network1:1700000000".
Proof.
  split; [reflexivity |].
  exact (proj1 (address_format Sample.env (JStr "bond") (JStr "bond01") (JStr "a03")
                  (JStr "p1") (JStr "YWxpY2U=") (JStr "network1") (JStr "Ym9i")
                  (JStr "network2") (JNum (Int 1700000000)) eq_refl)).
Defined.

(** A colon inside a value is written as it is, and read back as a
    delimiter: the pledge id [p:1] gives two segments. *)
Example colon_in_argument :
  getReclaimViewAddress Sample.env (JStr "bond") (JStr "bond01") (JStr "a03")
    (JStr "p:1") (JStr "YWxpY2U=") (JStr "network1") (JStr "Ym9i")
    (JStr "network2") (JNum (Int 1700000000))
  = ret "localhost:9083/network2/mychannel:simpleasset:GetAssetClaimStatus:p:1:bond01:a03:Ym9i:YWxpY2U=:network1:1700000000".
Proof. vm_compute. reflexivity. Qed.

(** The address of a bond is read back, field by field. *)
Lemma parse_build_roundtrip_witness :
  exists address,
    getReclaimViewAddress Sample.env_plain_relays (JStr "bond") (JStr "bond01")
      (JStr "a03") (JStr "p1") (JStr "YWxpY2U=") (JStr "network1") (JStr "Ym9i")
      (JStr "network2") (JNum (Int 1700000000)) = ret address /\
    AddressCodec.parse address =
    Some {| AddressCodec.relayEndpoint := "relay2";
            AddressCodec.network := "network2";
            AddressCodec.channel := "mychannel";
            AddressCodec.contract := "simpleasset";
            AddressCodec.function := "GetAssetClaimStatus";
            AddressCodec.args := ["p1"; "bond01"; "a03"; "Ym9i"; "YWxpY2U=";
                                  "network1"; "1700000000"] |}.
Proof.
  exact (parse_build_roundtrip Sample.env_plain_relays (JStr "bond") (JStr "bond01")
           (JStr "a03") (JStr "p1") (JStr "YWxpY2U=") (JStr "network1") (JStr "Ym9i")
           (JStr "network2") (JNum (Int 1700000000)) "GetAssetClaimStatus"
           eq_refl eq_refl eq_refl eq_refl).
Defined.

(** Without the condition on slashes there is no parser at all: two sets of
    fields, free of colons, are written as the same address. *)
Remark build_not_injective :
  let a := {| AddressCodec.relayEndpoint := "relay/a";
              AddressCodec.network := "b";
              AddressCodec.channel := "c";
              AddressCodec.contract := "d";
              AddressCodec.function := "f";
              AddressCodec.args := [] |} in
  let b := {| AddressCodec.relayEndpoint := "relay";
              AddressCodec.network := "a/b";
              AddressCodec.channel := "c";
              AddressCodec.contract := "d";
              AddressCodec.function := "f";
              AddressCodec.args := [] |} in
  AddressCodec.delimiter_free a = true /\ AddressCodec.delimiter_free b = true /\
  a <> b /\ AddressCodec.build a = AddressCodec.build b.
Proof. repeat split; discriminate. Qed.

(** C7, as first stated, fails: for the category [nft] and a resolved
    destination the builder writes to the console and ends the process. *)
Lemma unrecognized_category_ends_process :
  unresolved (getNetworkConfig Sample.env (JStr "network2")) = false /\
  getReclaimViewAddress Sample.env (JStr "nft") (JStr "bond01") (JStr "a03")
    (JStr "p1") (JStr "YWxpY2U=") (JStr "network1") (JStr "Ym9i")
    (JStr "network2") (JNum (Int 1700000000))
  = ([console_log [LogValue (JStr "Unecognized asset category:");
                   LogValue (JStr "nft")];
      process_exit (Some 1)],
     Halt (Some 1)).
Proof. split; reflexivity. Qed.

(** Two environments that agree on [network2]; the category bond. *)
Lemma builder_effects_witness :
  getNetworkConfig Sample.env (JStr "network2") =
  getNetworkConfig Sample.env_unknown_remote (JStr "network2") /\
  getReclaimViewAddress Sample.env (JStr "bond") (JStr "bond01") (JStr "a03")
    (JStr "p1") (JStr "YWxpY2U=") (JStr "network1") (JStr "Ym9i")
    (JStr "network2") (JNum (Int 1700000000)) =
  getReclaimViewAddress Sample.env_unknown_remote (JStr "bond") (JStr "bond01")
    (JStr "a03") (JStr "p1") (JStr "YWxpY2U=") (JStr "network1") (JStr "Ym9i")
    (JStr "network2") (JNum (Int 1700000000)) /\
  trace (getReclaimViewAddress Sample.env (JStr "bond") (JStr "bond01") (JStr "a03")
           (JStr "p1") (JStr "YWxpY2U=") (JStr "network1") (JStr "Ym9i")
           (JStr "network2") (JNum (Int 1700000000))) = [].
Proof.
  split; [reflexivity |].
  pose proof (builder_effects Sample.env Sample.env_unknown_remote (JStr "bond")
                (JStr "bond01") (JStr "a03") (JStr "p1") (JStr "YWxpY2U=")
                (JStr "network1") (JStr "Ym9i") (JStr "network2")
                (JNum (Int 1700000000)) eq_refl) as (Heq & Hquiet & _).
  split; [exact Heq |].
  apply Hquiet. right. discriminate.
Defined.

(** A pledge that names [network9], which has no configuration. *)
Lemma unresolved_destination_aborts_witness :
  let q := {| sourceNetworkName := JStr "network1"; pledgeId := JStr "p1";
              caller := JStr "alice"; ccType := JStr "bond" |} in
  let r := run Sample.env_unknown_remote Sample.bond_options in
  In (call_getLocalAssetPledgeDetails q) (trace r) /\
  getLocalAssetPledgeDetails Sample.env_unknown_remote q = inr (Sample.pledge "network9") /\
  truthy (connProfilePath (getNetworkConfig Sample.env_unknown_remote (JStr "network9"))) = false /\
  outcome r = Val tt /\
  last (trace r) = Some (print_error (invalid_destination Sample.bond_options)) /\
  errors (trace r) = [invalid_destination Sample.bond_options] /\
  flow_calls (trace r) = [].
Proof.
  intros q r.
  assert (Hin : In (call_getLocalAssetPledgeDetails q) (trace r)).
  { vm_compute. right. right. left. reflexivity. }
  split; [exact Hin |]. split; [reflexivity |]. split; [reflexivity |].
  exact (proj2 unresolved_destination_aborts Sample.env_unknown_remote
           Sample.bond_options q (Sample.pledge "network9") Hin eq_refl
           (or_introl eq_refl)).
Defined.

(** C3, as first stated, fails: the quantity [-5] is not positive, and the
    command goes on to the interop flow with it. *)
Lemma negative_quantity_accepted :
  parseInt (JStr "-5") = Int (-5) /\
  errors (trace (run Sample.env (Sample.token_options "token1:-5"))) = [] /\
  map (fun a => map address (if_views a))
    (flow_calls (trace (run Sample.env (Sample.token_options "token1:-5")))) =
  [["localhost:9083/network2/mychannel:simpleasset:GetTokenAssetClaimStatus:p1:token1:-5:Ym9i:YWxpY2U=:network1:1700000000"]].
Proof. repeat split; vm_compute; reflexivity. Qed.

(** The parameters [token1:50] and [token1:abc]. *)
Lemma token_quantity_check_witness :
  (help_requested (Sample.token_options "token1:50") = false /\
   first_missing (Sample.token_options "token1:50") = None /\
   parseInt (JStr "50") = Int 50 /\
   run Sample.env (Sample.token_options "token1:50") =
   prefixed (debug_events (Sample.token_options "token1:50"))
     (reclaim Sample.env (Sample.token_options "token1:50") (JStr "token1")
        (JStr "token") (JNum (Int 50)))) /\
  (parseInt (JStr "abc") = NaN /\
   run Sample.env (Sample.token_options "token1:abc") =
   (debug_events (Sample.token_options "token1:abc")
    ++ [print_error num_of_units_integer], Val tt)).
Proof.
  split.
  - split; [reflexivity |]. split; [reflexivity |]. split; [reflexivity |].
    exact (proj2 (proj2 (token_quantity_check Sample.env
                           (Sample.token_options "token1:50") "token1:50"
                           eq_refl eq_refl eq_refl eq_refl))
             50 eq_refl eq_refl).
  - split; [reflexivity |].
    exact (proj1 (proj2 (token_quantity_check Sample.env
                           (Sample.token_options "token1:abc") "token1:abc"
                           eq_refl eq_refl eq_refl eq_refl))
             eq_refl eq_refl).
Defined.

(** The flow of a reclaim of 50 units of [token1]. *)
Lemma reclaim_flow_shape_witness :
  exists a,
    flow_calls (trace (run Sample.env (Sample.token_options "token1:50"))) = [a] /\
    map address (if_views a) =
      ["localhost:9083/network2/mychannel:simpleasset:GetTokenAssetClaimStatus:p1:token1:50:Ym9i:YWxpY2U=:network1:1700000000"] /\
    ccFunc (if_invokeObject a) = "ReclaimTokenAsset" /\
    if_networkName a = JStr "network1".
Proof.
  eexists. split; [vm_compute; reflexivity |].
  match goal with
  | |- context [if_networkName ?a] =>
      assert (Hin : In (call_interopFlow a)
                      (trace (run Sample.env (Sample.token_options "token1:50"))))
        by (vm_compute; do 6 right; left; reflexivity);
      destruct (reclaim_flow_shape Sample.env (Sample.token_options "token1:50") a Hin)
        as (fields & pd & fh & w & Hviews & Hf & Hpd & Hnet & _ & Hcc & _ & _ & Hsrc & _)
  end.
  split; [reflexivity |]. split; [exact Hcc | exact Hsrc].
Defined.

(** C8, as first stated, fails: with [--help] and none of the required
    options, the command shows the help and prints no error. *)
Lemma help_without_required_options :
  truthy (get (Sample.options_of [("help", JBool true)]) "source-network") = false /\
  run Sample.env (Sample.options_of [("help", JBool true)]) = ([commandHelp], Val tt).
Proof. split; reflexivity. Qed.

(** An invocation with [--source-network] alone. *)
Lemma missing_required_option_witness :
  help_requested (Sample.options_of [("source-network", JStr "network1")]) = false /\
  truthy (get (Sample.options_of [("source-network", JStr "network1")]) "user") = false /\
  exists msg,
    first_missing (Sample.options_of [("source-network", JStr "network1")]) = Some msg /\
    run Sample.env (Sample.options_of [("source-network", JStr "network1")]) =
    (debug_events (Sample.options_of [("source-network", JStr "network1")])
     ++ [print_error msg], Val tt) /\
    existsb is_io
      (trace (run Sample.env (Sample.options_of [("source-network", JStr "network1")])))
    = false.
Proof.
  split; [reflexivity |]. split; [reflexivity |].
  exact (missing_required_option Sample.env
           (Sample.options_of [("source-network", JStr "network1")])
           eq_refl (or_intror (or_introl eq_refl))).
Defined.

(** The parameter [token1], with no second segment, for the category token. *)
Lemma num_of_units_needed_never_printed_witness :
  help_requested (Sample.token_options "token1") = false /\
  first_missing (Sample.token_options "token1") = None /\
  truthy (elem (split ":" "token1" !! 1%nat)) = false /\
  run Sample.env (Sample.token_options "token1") =
  (debug_events (Sample.token_options "token1") ++ [print_error assetId_needed], Val tt).
Proof.
  split; [reflexivity |]. split; [reflexivity |]. split; [reflexivity |].
  exact (proj2 num_of_units_needed_never_printed Sample.env
           (Sample.token_options "token1") "token1" eq_refl eq_refl eq_refl eq_refl).
Defined.

(** * Further properties of the command *)

(** ** [reclaim], step by step *)

(** [reclaim] as a list of decisions, each with the events that it leaves:
    the source network, the gateway, the wallet, the pledge record, the
    destination network, the category, the key and certificate, the
    chaincode configuration, the CA files, and the flow. *)
Lemma reclaim_unfold (env : Env) (options : gmap string jsval)
    (assetType assetCategory assetIdOrQuantity : jsval) :
  reclaim env options assetType assetCategory assetIdOrQuantity =
  let source := getNetworkConfig env (get options "source-network") in
  let user := get options "user" in
  let fh := gateway_request env options in
  let q := pledge_query options assetCategory in
  if unresolved source then
    ([print_error
        ("Please use a valid --source-network. No valid environment found for " ^^
         ToString (get options "source-network") ^^ " ")], Val tt)
  else
  match fabricHelper env fh with
  | inl e => ([call_fabricHelper fh], Throw e)
  | inr (wallet, contract) =>
  match wallet_get env wallet user with
  | inl e => ([call_fabricHelper fh; call_wallet_get wallet user], Throw e)
  | inr None =>
      ([call_fabricHelper fh; call_wallet_get wallet user],
       Throw (TypeError "Cannot read properties of undefined (reading 'credentials')"))
  | inr (Some certificate) =>
  match getLocalAssetPledgeDetails env q with
  | inl e =>
      ([call_fabricHelper fh; call_wallet_get wallet user;
        call_getLocalAssetPledgeDetails q], Throw e)
  | inr pd =>
  let before := [call_fabricHelper fh; call_wallet_get wallet user;
                 call_getLocalAssetPledgeDetails q] in
  let dest := getNetworkConfig env (JStr (getRemotenetworkid pd)) in
  if unresolved dest then
    (before ++ [print_error (invalid_destination options)], Val tt)
  else
  match claimStatusFunction assetCategory with
  | None =>
      (before ++ [console_log [LogValue (JStr "Unecognized asset category:");
                               LogValue assetCategory];
                  process_exit (Some 1)], Halt (Some 1))
  | Some f =>
  let viewAddress :=
    AddressCodec.build
      (claimStatusFields dest f assetType assetIdOrQuantity
         (get options "pledge-id") (JStr (Buffer_base64 env certificate))
         (get options "source-network") (JStr (getRecipient pd))
         (JStr (getRemotenetworkid pd)) (JNum (Int (getExpirytimesecs pd)))) in
  let kc := call_getKeyAndCertForRemoteRequestbyUserName wallet user in
  match getKeyAndCertForRemoteRequestbyUserName env wallet user with
  | inl e =>
      (before ++ [kc; print_error ("Error getting key and cert " ^^ Exn_toString e)],
       Val tt)
  | inr keyCert =>
  let spin :=
    print_spin "Starting Interop Query for ClaimStatus in destination network" in
  match getChaincodeConfig env (chaincode source) (applicationFunction assetCategory) with
  | inl e => (before ++ [kc; spin], Throw e)
  | inr replaceIndices =>
  match relayTlsCAFiles options with
  | None => (before ++ [kc; spin], Throw (TypeError "split is not a function"))
  | Some files =>
  let a := flow_request env options assetCategory contract pd viewAddress
             keyCert replaceIndices files in
  (before ++ [kc; spin; console_log [LogInvokeObject (if_invokeObject a)];
              call_interopFlow a]
   ++ flow_report env a ++ [process_exit None], Halt None)
  end end end end end end end.
Proof.
  cbv zeta.
  unfold reclaim, gateway_request, pledge_query, relayTlsCAFiles, flow_request,
    invokeObject_of, flow_report, flow_failure, invalid_destination.
  cbn [if_invokeObject ccFunc ccArgs].
  repeat reclaim_step.
  all: reflexivity.
Qed.

(** ** What a trace is made of *)

Lemma io_kinds_app (t u : list Event) : io_kinds (t ++ u) = io_kinds t ++ io_kinds u.
Proof. apply flat_map_app. Qed.

Lemma errors_app (t u : list Event) : errors (t ++ u) = errors t ++ errors u.
Proof. apply flat_map_app. Qed.

Lemma flow_calls_app (t u : list Event) :
  flow_calls (t ++ u) = flow_calls t ++ flow_calls u.
Proof. apply flat_map_app. Qed.

Lemma io_kinds_debug (options : gmap string jsval) :
  io_kinds (debug_events options) = [].
Proof. unfold debug_events. now destruct (strict_eq _ _). Qed.

Lemma errors_debug_nil (options : gmap string jsval) :
  errors (debug_events options) = [].
Proof. unfold debug_events. now destruct (strict_eq _ _). Qed.

Lemma flow_calls_debug_nil (options : gmap string jsval) :
  flow_calls (debug_events options) = [].
Proof. unfold debug_events. now destruct (strict_eq _ _). Qed.

(** After the call of [interopFlow] the command only logs. *)
Lemma flow_report_quiet (env : Env) (a : InteropFlowArgs) :
  io_kinds (flow_report env a) = [] /\ errors (flow_report env a) = [] /\
  flow_calls (flow_report env a) = [].
Proof.
  unfold flow_report, flow_failure.
  destruct (interopFlow env a) as [e | response]; [now repeat split |].
  destruct (views response) as [| view0 ?]; [now repeat split |].
  destruct (getResponseDataFromView env view0); now repeat split.
Qed.

Lemma io_kinds_flow_report (env : Env) (a : InteropFlowArgs) :
  io_kinds (flow_report env a) = [].
Proof. apply flow_report_quiet. Qed.

Lemma errors_flow_report (env : Env) (a : InteropFlowArgs) :
  errors (flow_report env a) = [].
Proof. apply flow_report_quiet. Qed.

Lemma flow_calls_flow_report (env : Env) (a : InteropFlowArgs) :
  flow_calls (flow_report env a) = [].
Proof. apply flow_report_quiet. Qed.

Create Rewrite HintDb trace_db.
#[local] Hint Rewrite io_kinds_app errors_app flow_calls_app io_kinds_debug
  errors_debug_nil flow_calls_debug_nil io_kinds_flow_report
  errors_flow_report flow_calls_flow_report app_nil_r : trace_db.

(** One step of a case analysis of [run]: the list of decisions of [run],
    then that of [reclaim], then the innermost test that stands in the way. *)
Ltac run_step :=
  first
    [ rewrite reclaim_unfold
    | progress cbv beta iota zeta delta [prefixed emit throw fst snd reclaim_of]
    | match goal with
      | |- context [match ?x with _ => _ end] =>
          lazymatch x with
          | context [match _ with _ => _ end] => fail
          | _ => destruct x eqn:?
          end
      end ].

Ltac run_cases := rewrite run_unfold; repeat run_step.

(** The kinds of outside events in a trace, computed. *)
Ltac trace_simpl :=
  cbn [trace outcome fst snd];
  autorewrite with trace_db;
  cbn [io_kinds errors flow_calls flat_map app In].

(** X1. The events of a run that reach outside the process come in one
    order, each at most once: the gateway, the wallet, the pledge record,
    the key and certificate, the interop flow. *)
Theorem io_in_order (env : Env) (options : gmap string jsval) :
  io_kinds (trace (run env options)) `prefix_of`
  [Gateway; WalletRead; PledgeLookup; KeyCertRead; InteropFlow].
Proof.
  run_cases.
  all: trace_simpl.
  all: match goal with
       | |- ?l `prefix_of` ?m =>
           let k := eval cbv in (drop (List.length l) m) in exists k; reflexivity
       end.
Qed.

(** ** Decimal numerals *)











(** ** How a run ends *)

Lemma in_flow_calls (a : InteropFlowArgs) (t : list Event) :
  In (call_interopFlow a) t <-> In a (flow_calls t).
Proof.
  unfold flow_calls. rewrite in_flat_map. split.
  - intros H. exists (call_interopFlow a). split; [exact H | now left].
  - intros (e & He & Ha). destruct e; cbn in Ha; try contradiction.
    destruct Ha as [-> | []]. exact He.
Qed.

Lemma in_errors (m : string) (t : list Event) :
  In (print_error m) t <-> In m (errors t).
Proof.
  unfold errors. rewrite in_flat_map. split.
  - intros H. exists (print_error m). split; [exact H | now left].
  - intros (e & He & Hm). destruct e; cbn in Hm; try contradiction.
    destruct Hm as [-> | []]. exact He.
Qed.

(** The whole trace of a run that calls the interop flow. *)
Lemma run_flow_trace (env : Env) (options : gmap string jsval)
    (a : InteropFlowArgs) :
  In (call_interopFlow a) (trace (run env options)) ->
  exists wallet,
    run env options =
    (debug_events options ++
     [call_fabricHelper (gateway_request env options);
      call_wallet_get wallet (get options "user");
      call_getLocalAssetPledgeDetails (pledge_query options (get options "type"));
      call_getKeyAndCertForRemoteRequestbyUserName wallet (get options "user");
      print_spin "Starting Interop Query for ClaimStatus in destination network";
      console_log [LogInvokeObject (if_invokeObject a)];
      call_interopFlow a]
     ++ flow_report env a ++ [process_exit None],
     Halt None).
Proof.
  rewrite in_flow_calls. run_cases.
  all: trace_simpl; intros H; in_cases H; subst a.
  all: eexists; cbn [app]; reflexivity.
Qed.

(** X2. A run that calls the interop flow calls it once, prints no error,
    and ends the process with the default exit code as its last event,
    whatever the flow answers. *)
Theorem flow_ends_process (env : Env) (options : gmap string jsval)
    (a : InteropFlowArgs) :
  In (call_interopFlow a) (trace (run env options)) ->
  outcome (run env options) = Halt None /\
  last (trace (run env options)) = Some (process_exit None) /\
  flow_calls (trace (run env options)) = [a] /\
  errors (trace (run env options)) = [].
Proof.
  intros (w & ->)%run_flow_trace. unfold trace, outcome. cbn [fst snd].
  split; [reflexivity |].
  split; [rewrite !app_assoc; apply last_snoc |].
  trace_simpl. split; reflexivity.
Qed.

(** X3. An interop flow that fails is not thrown further: the spinner
    fails, the error is logged with its text, nothing reports success, and
    the process still ends with the default exit code. *)
Theorem failed_flow_is_caught (env : Env) (options : gmap string jsval)
    (a : InteropFlowArgs) (e : Exn) :
  In (call_interopFlow a) (trace (run env options)) ->
  interopFlow env a = inl e ->
  let t := trace (run env options) in
  outcome (run env options) = Halt None /\
  In (spinner_fail "Error verifying and storing state") t /\
  In (logger_error ("Error verifying and storing state: " ^^ Exn_toString e)) t /\
  (forall msg, ~ In (spinner_succeed msg) t) /\
  (forall msg, ~ In (logger_info msg) t).
Proof.
  intros (w & ->)%run_flow_trace He. cbv zeta. unfold flow_report. rewrite He.
  unfold flow_failure, trace, outcome. cbn [fst snd].
  split; [reflexivity |].
  split; [apply in_app_iff; right; cbn; tauto |].
  split; [apply in_app_iff; right; cbn; tauto |].
  assert (Hdbg : forall ev, In ev (debug_events options) ->
            ev = logger_level "debug" \/ ev = logger_debug "Debugging is enabled").
  { intros ev. unfold debug_events. destruct (strict_eq _ _); cbn; intuition. }
  split; intros msg [H | H]%in_app_iff;
    try (apply Hdbg in H; destruct H; discriminate);
    cbn in H; in_cases H; discriminate.
Qed.

(** The end of a trace whose last events are known. *)
Ltac last_event :=
  cbn [app];
  repeat first [ rewrite last_app_cons | rewrite last_cons_cons ];
  reflexivity.

(** X4. The process is ended in two ways only: with the default exit code,
    after the one call of the interop flow, or with exit code 1, for a
    category that is neither bond nor token, once the gateway, the wallet and
    the pledge record have been read and before the key and certificate are. *)
Theorem exit_codes (env : Env) (options : gmap string jsval) (code : option Z) :
  outcome (run env options) = Halt code ->
  (code = None /\
   (exists a, flow_calls (trace (run env options)) = [a]) /\
   last (trace (run env options)) = Some (process_exit None))
  \/
  (code = Some 1 /\
   claimStatusFunction (get options "type") = None /\
   io_kinds (trace (run env options)) = [Gateway; WalletRead; PledgeLookup] /\
   errors (trace (run env options)) = [] /\
   last (trace (run env options)) = Some (process_exit (Some 1))).
Proof.
  run_cases.
  all: cbn [trace outcome fst snd]; intros H; try discriminate H.
  all: injection H as <-.
  all: first
    [ right; split; [reflexivity |]; split; [reflexivity || assumption |];
      split; [| split]; [trace_simpl; reflexivity .. | last_event]
    | left; split; [reflexivity |]; split;
      [ eexists; trace_simpl; reflexivity
      | rewrite !app_assoc; apply last_snoc ] ].
Qed.

(** X5. An error message is the end of the run: the command prints at most
    one, as its last event, returns normally, and has not called the interop
    flow. *)
Theorem error_is_final (env : Env) (options : gmap string jsval) (m : string) :
  In (print_error m) (trace (run env options)) ->
  outcome (run env options) = Val tt /\
  last (trace (run env options)) = Some (print_error m) /\
  errors (trace (run env options)) = [m] /\
  flow_calls (trace (run env options)) = [].
Proof.
  rewrite in_errors. run_cases.
  all: trace_simpl; intros H; in_cases H; subst m.
  all: split; [reflexivity |]; split; [| split; reflexivity].
  all: unfold invalid_destination; last_event.
Qed.

(** X6. When the run throws (a helper fails before the flow, the wallet
    has no identity, an option is not a string), the command has printed no
    error, logged none, and has not called the interop flow. *)
Theorem rejection_is_silent (env : Env) (options : gmap string jsval) (e : Exn) :
  outcome (run env options) = Throw e ->
  errors (trace (run env options)) = [] /\
  flow_calls (trace (run env options)) = [] /\
  (forall msg, ~ In (logger_error msg) (trace (run env options))) /\
  (forall msg, ~ In (spinner_fail msg) (trace (run env options))).
Proof.
  assert (Hdbg : forall ev, In ev (debug_events options) ->
            ev = logger_level "debug" \/ ev = logger_debug "Debugging is enabled").
  { intros ev. unfold debug_events. destruct (strict_eq _ _); cbn; intuition. }
  run_cases.
  all: cbn [trace outcome fst snd]; intros H; try discriminate H.
  all: split; [trace_simpl; reflexivity |]; split; [trace_simpl; reflexivity |].
  all: split; intros msg [Hin | Hin]%in_app_iff;
         try (apply Hdbg in Hin; destruct Hin; discriminate);
         cbn in Hin; in_cases Hin; discriminate.
Qed.

(** ** The parameter and the quantity *)

Lemma get_insert_same (options : gmap string jsval) (k : string) (v : jsval) :
  get (<[k := v]> options) k = v.
Proof. unfold get. now rewrite lookup_insert_eq. Qed.

(** Every option but [k] reads the same whatever the value given to [k]. *)
Ltac forget_option k :=
  repeat match goal with
         | |- context [get (<[k := ?v]> ?o) ?k'] =>
             lazymatch k' with
             | k => fail
             | _ => rewrite (get_insert_other o k k' v) by discriminate
             end
         end.

(** [reclaim] does not read the option param. *)
Lemma reclaim_ignores_param (env : Env) (options : gmap string jsval)
    (v v' : jsval) (assetType assetCategory assetIdOrQuantity : jsval) :
  reclaim env (<["param" := v]> options) assetType assetCategory assetIdOrQuantity =
  reclaim env (<["param" := v']> options) assetType assetCategory assetIdOrQuantity.
Proof. unfold reclaim. forget_option "param". reflexivity. Qed.


Lemma split_empty_second (c : ascii) (s : string) :
  is_Some (split c s !! 1%nat) -> s <> EmptyString.
Proof. intros [x Hx] ->. discriminate. Qed.

(** X7. Segments of the parameter after the second one are ignored: with
    at least two segments already, appending a colon and anything changes
    nothing of the run. *)
Theorem trailing_segments_ignored (env : Env) (options : gmap string jsval)
    (p rest : string) :
  is_Some (split ":" p !! 1%nat) ->
  run env (<["param" := JStr (p ^^ ":" ^^ rest)]> options) =
  run env (<["param" := JStr p]> options).
Proof.
  intros Hsecond.
  assert (Hp : p <> EmptyString) by now apply split_empty_second in Hsecond.
  assert (Hsplit : forall i, (i < 2)%nat ->
            split ":" (p ^^ ":" ^^ rest) !! i = split ":" p !! i).
  { intros i Hi. rewrite append_assoc.
    change (":" ^^ rest) with (String ":" rest).
    rewrite split_append_sep. apply lookup_app_l.
    destruct Hsecond as [x Hx]. apply lookup_lt_Some in Hx. lia. }
  rewrite !run_unfold. unfold help_requested, debug_events, reclaim_of.
  forget_option "param". rewrite !get_insert_same.
  rewrite (Hsplit 0%nat), (Hsplit 1%nat) by lia.
  assert (Htruthy : truthy (JStr (p ^^ ":" ^^ rest)) = truthy (JStr p)).
  { destruct p; [congruence | reflexivity]. }
  rewrite Htruthy.
  now rewrite (reclaim_ignores_param env options (JStr (p ^^ ":" ^^ rest)) (JStr p)).
Qed.



(** ** What the interop flow is given *)

(** The arguments of a call of [interopFlow], and the answers of the helpers
    that they come from. *)
Lemma run_flow_request (env : Env) (options : gmap string jsval)
    (a : InteropFlowArgs) :
  In (call_interopFlow a) (trace (run env options)) ->
  exists wallet contract pd viewAddress keyCert replaceIndices files,
    a = flow_request env options (get options "type") contract pd viewAddress
          keyCert replaceIndices files /\
    fabricHelper env (gateway_request env options) = inr (wallet, contract) /\
    getKeyAndCertForRemoteRequestbyUserName env wallet (get options "user")
      = inr keyCert /\
    getChaincodeConfig env
      (chaincode (getNetworkConfig env (get options "source-network")))
      (applicationFunction (get options "type")) = inr replaceIndices /\
    relayTlsCAFiles options = Some files.
Proof.
  rewrite in_flow_calls. run_cases.
  all: trace_simpl; intros H; in_cases H; subst a.
  all: eexists _, _, _, _, _, _, _; repeat (split; [reflexivity || eassumption |]);
       reflexivity || eassumption.
Qed.

(** X10. TLS towards the relay is asked for exactly when the option
    relay-tls is the string [true] (a bare flag, the boolean, does not count),
    and the CA files are the colon-separated segments of the option
    relay-tls-ca-files, none when the option is absent or empty. *)
Theorem relay_tls_options (env : Env) (options : gmap string jsval)
    (a : InteropFlowArgs) :
  In (call_interopFlow a) (trace (run env options)) ->
  (if_useTls a = true <-> get options "relay-tls" = JStr "true") /\
  (truthy (get options "relay-tls-ca-files") = false ->
   if_tlsRootCACertPaths a = []) /\
  (truthy (get options "relay-tls-ca-files") = true ->
   exists s, get options "relay-tls-ca-files" = JStr s /\
             if_tlsRootCACertPaths a = split ":" s).
Proof.
  intros (w & c & pd & addr & kc & ri & files & -> & _ & _ & _ & Hfiles)%run_flow_request.
  cbn [flow_request if_useTls if_tlsRootCACertPaths].
  split; [apply strict_eq_JStr |].
  unfold relayTlsCAFiles in Hfiles.
  destruct (truthy (get options "relay-tls-ca-files")).
  - split; [discriminate |]. intros _.
    destruct (get options "relay-tls-ca-files") as [| b | n | s]; try discriminate.
    exists s. split; [reflexivity | congruence].
  - split; [intros _; congruence | discriminate].
Qed.

(** X11. The flow runs with what the earlier steps answered: the contract
    of the gateway of the source network, the key and certificate read from
    the wallet of that same gateway for the user, and the replace indices
    that the chaincode configuration gives for the local function of the
    invocation; it goes through the relay of the source network and asks for
    a signed view. *)
Theorem flow_composition (env : Env) (options : gmap string jsval)
    (a : InteropFlowArgs) :
  In (call_interopFlow a) (trace (run env options)) ->
  let source := getNetworkConfig env (get options "source-network") in
  exists wallet,
    fabricHelper env (gateway_request env options) = inr (wallet, if_contract a) /\
    getKeyAndCertForRemoteRequestbyUserName env wallet (get options "user")
      = inr (if_keyCert a) /\
    getChaincodeConfig env (contractName (if_invokeObject a))
      (ccFunc (if_invokeObject a)) = inr (if_replaceIndices a) /\
    if_relayEndpoint a = relayEndpoint source /\
    if_mspId a = mspId source /\
    map Sign (if_views a) = [true].
Proof.
  intros (w & c & pd & addr & kc & ri & files & -> & Hfh & Hkc & Hri & _)%run_flow_request.
  cbv zeta. exists w. repeat (split; [assumption || reflexivity |]). reflexivity.
Qed.

(** X12. The pledge id is not checked: when the option pledge-id is
    absent, a run that reaches the flow has looked the pledge up with an
    undefined id, and writes the word [undefined] as the first argument of
    the view address and [undefined] as the first argument of the local
    invocation. *)
Theorem missing_pledge_id (env : Env) (options : gmap string jsval)
    (a : InteropFlowArgs) :
  get options "pledge-id" = JUndefined ->
  In (call_interopFlow a) (trace (run env options)) ->
  exists fields pd,
    getLocalAssetPledgeDetails env
      {| sourceNetworkName := get options "source-network";
         pledgeId := JUndefined;
         caller := get options "user";
         ccType := get options "type" |} = inr pd /\
    if_views a = [{| address := AddressCodec.build fields; Sign := true |}] /\
    hd_error (AddressCodec.args fields) = Some "undefined" /\
    hd_error (ccArgs (if_invokeObject a)) = Some JUndefined.
Proof.
  intros Hid Hin.
  destruct (flow_uses_pledge_record _ _ _ Hin)
    as (pd & f & ty & qty & cert & Hpd & Hviews & Hargs).
  rewrite Hid in *. eexists _, pd.
  split; [exact Hpd |]. split; [exact Hviews |].
  split; [reflexivity | now rewrite Hargs].
Qed.

(** ** Colons in an address *)

Lemma length_split (c : ascii) (s : string) :
  List.length (split c s) = S (count_of c s).
Proof.
  induction s as [| a s IH]; [reflexivity |].
  cbn [split count_of]. destruct (Ascii.eqb a c).
  - cbn [List.length]. now rewrite IH.
  - destruct (split c s) as [| h t] eqn:Hs; [now apply split_not_nil in Hs |].
    cbn [List.length] in *. now rewrite IH.
Qed.

Lemma count_of_append (c : ascii) (s t : string) :
  count_of c (s ^^ t) = (count_of c s + count_of c t)%nat.
Proof.
  induction s as [| a s IH]; [reflexivity |].
  cbn [String.append count_of]. rewrite IH. lia.
Qed.

Lemma count_of_zero (c : ascii) (s : string) :
  count_of c s = 0%nat <-> AddressCodec.free_of c s = true.
Proof.
  induction s as [| a s IH]; [easy |].
  cbn [count_of AddressCodec.free_of]. destruct (Ascii.eqb a c); cbn.
  - split; [lia | discriminate].
  - exact IH.
Qed.

(** X13. The address has ten colon-delimited segments exactly when none of
    its fields holds a colon; otherwise it has more, one for each colon in a
    field (a relay endpoint written host:port gives eleven). *)
Theorem address_segments (env : Env)
    (assetCategory assetType assetIdOrQuantity pledgeId pledgerCert
     sourceNetwork recipientCert destNetwork pledgeExpiryTimeSecs : jsval)
    (f : string) :
  unresolved (getNetworkConfig env destNetwork) = false ->
  claimStatusFunction assetCategory = Some f ->
  let fields :=
    claimStatusFields (getNetworkConfig env destNetwork) f assetType
      assetIdOrQuantity pledgeId pledgerCert sourceNetwork recipientCert
      destNetwork pledgeExpiryTimeSecs in
  exists address,
    getReclaimViewAddress env assetCategory assetType assetIdOrQuantity pledgeId
      pledgerCert sourceNetwork recipientCert destNetwork pledgeExpiryTimeSecs
    = ret address /\
    (10 <= List.length (split ":" address))%nat /\
    (List.length (split ":" address) = 10%nat <->
     AddressCodec.delimiter_free fields = true).
Proof.
  intros Hres Hf fields.
  exists (AddressCodec.build fields). split.
  - now rewrite getReclaimViewAddress_cases, Hres, Hf.
  - clear Hres Hf. subst fields.
    rewrite build_segments, split_concat by discriminate.
    unfold AddressCodec.delimiter_free, claimStatusFields.
    cbn [AddressCodec.relayEndpoint AddressCodec.network AddressCodec.channel
         AddressCodec.contract AddressCodec.function AddressCodec.args
         map flat_map forallb].
    rewrite !length_app, !length_split, !count_of_append.
    change (count_of ":" "/") with 0%nat.
    rewrite !andb_true_iff, <- !count_of_zero. cbn [List.length]. lia.
Qed.

(** ** When the command reaches outside the process *)

(** X14. The run reaches the gateway (and so anything outside the
    process) exactly when help is not asked for, the four required options
    are there, the parameter is a string with a second segment, which for the
    category token parses as an integer, and the source network is resolved. *)
Theorem outside_reached_iff (env : Env) (options : gmap string jsval) :
  existsb is_io (trace (run env options)) = true <->
  help_requested options = false /\
  first_missing options = None /\
  unresolved (getNetworkConfig env (get options "source-network")) = false /\
  exists p,
    get options "param" = JStr p /\
    truthy (elem (split ":" p !! 1%nat)) = true /\
    (get options "type" = JStr "token" ->
     parseInt (elem (split ":" p !! 1%nat)) <> NaN).
Proof.
  split.
  - intros (e & Hin & Hio)%existsb_exists.
    destruct (run_io _ _ _ Hin Hio) as (p & Hhelp & Hfirst & Hparam & Hq & Hrun & Hin').
    split; [exact Hhelp |]. split; [exact Hfirst |].
    assert (Hprint : forall m, In e [print_error m] -> False).
    { intros m [<- | []]. discriminate. }
    split.
    + unfold reclaim_of in Hin'. rewrite reclaim_unfold in Hin'. cbv zeta in Hin'.
      destruct (unresolved _); [| reflexivity].
      now apply Hprint in Hin'.
    + exists p. split; [exact Hparam |]. split; [exact Hq |].
      intros Htype Hnan.
      rewrite (run_param _ _ _ Hhelp Hfirst Hparam), Hq, Htype, Hnan in Hrun.
      cbn [negb andb isNaN] in Hrun.
      change (strict_eq (JStr "token") (JStr "token")) with true in Hrun.
      cbn [andb] in Hrun. unfold prefixed in Hrun.
      injection Hrun as Htrace _. apply app_inv_head in Htrace.
      unfold trace in Hin'. rewrite <- Htrace in Hin'.
      now apply Hprint in Hin'.
  - intros (Hhelp & Hfirst & Hsource & p & Hparam & Hq & Hnan).
    rewrite (run_param _ _ _ Hhelp Hfirst Hparam), Hq. cbn [negb].
    assert (Hcheck : strict_eq (get options "type") (JStr "token")
                     && isNaN (parseInt (elem (split ":" p !! 1%nat))) = false).
    { destruct (strict_eq (get options "type") (JStr "token")) eqn:Htype;
        [| reflexivity].
      apply strict_eq_JStr in Htype. specialize (Hnan Htype).
      now destruct (parseInt _). }
    rewrite Hcheck. unfold reclaim_of. rewrite reclaim_unfold. cbv zeta.
    rewrite Hsource.
    repeat run_step.
    all: unfold trace; cbn [fst app]; rewrite existsb_app; cbn [existsb is_io];
         now rewrite orb_true_r.
Qed.

(** ** Examples of the further properties *)

(** The seventh event of a trace. *)
Ltac seventh := vm_compute; do 6 right; left; reflexivity.

(** The reclaim of a bond on the test network ends the process. *)
Lemma flow_ends_process_witness :
  In (call_interopFlow sample_bond_flow) (trace (run Sample.env Sample.bond_options)) /\
  outcome (run Sample.env Sample.bond_options) = Halt None /\
  last (trace (run Sample.env Sample.bond_options)) = Some (process_exit None) /\
  flow_calls (trace (run Sample.env Sample.bond_options)) = [sample_bond_flow] /\
  errors (trace (run Sample.env Sample.bond_options)) = [].
Proof.
  assert (Hin : In (call_interopFlow sample_bond_flow)
                  (trace (run Sample.env Sample.bond_options))) by seventh.
  split; [exact Hin |].
  exact (flow_ends_process Sample.env Sample.bond_options sample_bond_flow Hin).
Defined.

(** The same reclaim, the relay being down. *)
Lemma failed_flow_is_caught_witness :
  In (call_interopFlow sample_bond_flow)
     (trace (run Faults.relay_down Sample.bond_options)) /\
  interopFlow Faults.relay_down sample_bond_flow = inl (Error "relay unreachable") /\
  outcome (run Faults.relay_down Sample.bond_options) = Halt None /\
  In (logger_error ("Error verifying and storing state: " ^^
                    Exn_toString (Error "relay unreachable")))
     (trace (run Faults.relay_down Sample.bond_options)).
Proof.
  assert (Hin : In (call_interopFlow sample_bond_flow)
                  (trace (run Faults.relay_down Sample.bond_options))) by seventh.
  split; [exact Hin |]. split; [reflexivity |].
  destruct (failed_flow_is_caught Faults.relay_down Sample.bond_options
              sample_bond_flow (Error "relay unreachable") Hin eq_refl)
    as (Hout & _ & Hlog & _).
  split; [exact Hout | exact Hlog].
Defined.

(** The category [nft] on the test network. *)
Lemma exit_codes_witness :
  outcome (run Sample.env (<["type" := JStr "nft"]> Sample.bond_options)) = Halt (Some 1) /\
  claimStatusFunction (get (<["type" := JStr "nft"]> Sample.bond_options) "type") = None /\
  io_kinds (trace (run Sample.env (<["type" := JStr "nft"]> Sample.bond_options))) =
    [Gateway; WalletRead; PledgeLookup].
Proof.
  assert (Hout : outcome (run Sample.env (<["type" := JStr "nft"]> Sample.bond_options))
                 = Halt (Some 1)) by (vm_compute; reflexivity).
  split; [exact Hout |].
  destruct (exit_codes Sample.env (<["type" := JStr "nft"]> Sample.bond_options)
              (Some 1) Hout) as [[H _] | (_ & Hf & Hio & _)].
  - discriminate H.
  - split; [exact Hf | exact Hio].
Defined.

(** A pledge that names a network with no configuration. *)
Lemma error_is_final_witness :
  In (print_error (invalid_destination Sample.bond_options))
     (trace (run Sample.env_unknown_remote Sample.bond_options)) /\
  outcome (run Sample.env_unknown_remote Sample.bond_options) = Val tt /\
  errors (trace (run Sample.env_unknown_remote Sample.bond_options)) =
    [invalid_destination Sample.bond_options].
Proof.
  assert (Hin : In (print_error (invalid_destination Sample.bond_options))
                  (trace (run Sample.env_unknown_remote Sample.bond_options)))
    by (vm_compute; do 3 right; left; reflexivity).
  split; [exact Hin |].
  destruct (error_is_final Sample.env_unknown_remote Sample.bond_options _ Hin)
    as (Hout & _ & Herr & _).
  split; [exact Hout | exact Herr].
Defined.

(** The gateway of the source network being down. *)
Lemma rejection_is_silent_witness :
  outcome (run Faults.gateway_down Sample.bond_options) =
    Throw (Error "gateway unreachable") /\
  errors (trace (run Faults.gateway_down Sample.bond_options)) = [] /\
  flow_calls (trace (run Faults.gateway_down Sample.bond_options)) = [].
Proof.
  assert (Hout : outcome (run Faults.gateway_down Sample.bond_options) =
                 Throw (Error "gateway unreachable")) by (vm_compute; reflexivity).
  split; [exact Hout |].
  destruct (rejection_is_silent Faults.gateway_down Sample.bond_options
              (Error "gateway unreachable") Hout) as (Herr & Hflow & _).
  split; [exact Herr | exact Hflow].
Defined.

(** The parameter [bond01:a03] followed by [:more:still]. *)
Lemma trailing_segments_ignored_witness :
  is_Some (split ":" "bond01:a03" !! 1%nat) /\
  run Sample.env (<["param" := JStr ("bond01:a03" ^^ ":" ^^ "more:still")]> Sample.bond_options) =
  run Sample.env (<["param" := JStr "bond01:a03"]> Sample.bond_options).
Proof.
  assert (H : is_Some (split ":" "bond01:a03" !! 1%nat)) by (eexists; reflexivity).
  split; [exact H |].
  exact (trailing_segments_ignored Sample.env Sample.bond_options "bond01:a03"
           "more:still" H).
Defined.



(** The reclaim of the bond with [--relay-tls=true] and two CA files. *)
Lemma relay_tls_options_witness :
  let options :=
    <["relay-tls" := JStr "true"]>
      (<["relay-tls-ca-files" := JStr "ca1.pem:ca2.pem"]> Sample.bond_options) in
  exists a,
    flow_calls (trace (run Sample.env options)) = [a] /\
    if_useTls a = true /\
    if_tlsRootCACertPaths a = ["ca1.pem"; "ca2.pem"].
Proof.
  cbv zeta. eexists. split; [vm_compute; reflexivity |].
  match goal with
  | |- context [if_useTls ?a] =>
      assert (Hin : In (call_interopFlow a)
                      (trace (run Sample.env
                                (<["relay-tls" := JStr "true"]>
                                   (<["relay-tls-ca-files" := JStr "ca1.pem:ca2.pem"]>
                                      Sample.bond_options))))) by seventh;
      destruct (relay_tls_options Sample.env _ a Hin) as (Htls & _ & Hfiles)
  end.
  split; [apply Htls; reflexivity |].
  destruct (Hfiles eq_refl) as (s & Hs & ->). now injection Hs as <-.
Defined.

(** The reclaim of the bond of the examples. *)
Lemma flow_composition_witness :
  In (call_interopFlow sample_bond_flow) (trace (run Sample.env Sample.bond_options)) /\
  if_relayEndpoint sample_bond_flow = JStr "localhost:9080" /\
  map Sign (if_views sample_bond_flow) = [true].
Proof.
  assert (Hin : In (call_interopFlow sample_bond_flow)
                  (trace (run Sample.env Sample.bond_options))) by seventh.
  split; [exact Hin |].
  destruct (flow_composition Sample.env Sample.bond_options sample_bond_flow Hin)
    as (w & _ & _ & _ & Hrelay & _ & Hsign).
  split; [exact Hrelay | exact Hsign].
Defined.

(** The reclaim of the bond with no [--pledge-id]. *)
Lemma missing_pledge_id_witness :
  let options :=
    Sample.options_of [("source-network", JStr "network1"); ("user", JStr "alice");
                       ("type", JStr "bond"); ("param", JStr "bond01:a03")] in
  exists a,
    get options "pledge-id" = JUndefined /\
    flow_calls (trace (run Sample.env options)) = [a] /\
    hd_error (ccArgs (if_invokeObject a)) = Some JUndefined.
Proof.
  cbv zeta. eexists. split; [reflexivity |]. split; [vm_compute; reflexivity |].
  match goal with
  | |- context [if_invokeObject ?a] =>
      assert (Hin : In (call_interopFlow a)
                      (trace (run Sample.env
                                (Sample.options_of
                                   [("source-network", JStr "network1");
                                    ("user", JStr "alice"); ("type", JStr "bond");
                                    ("param", JStr "bond01:a03")])))) by seventh;
      destruct (missing_pledge_id Sample.env
                  (Sample.options_of
                     [("source-network", JStr "network1");
                      ("user", JStr "alice"); ("type", JStr "bond");
                      ("param", JStr "bond01:a03")]) a eq_refl Hin)
        as (fields & pd & _ & _ & _ & Hargs)
  end.
  exact Hargs.
Defined.

(** The address of the examples has eleven segments: its relay endpoint is
    written host:port. *)
Lemma address_segments_witness :
  exists address,
    getReclaimViewAddress Sample.env (JStr "bond") (JStr "bond01") (JStr "a03")
      (JStr "p1") (JStr "YWxpY2U=") (JStr "network1") (JStr "Ym9i")
      (JStr "network2") (JNum (Int 1700000000)) = ret address /\
    (10 <= List.length (split ":" address))%nat /\
    (List.length (split ":" address) = 10%nat <->
     AddressCodec.delimiter_free
       (claimStatusFields (getNetworkConfig Sample.env (JStr "network2"))
          "GetAssetClaimStatus" (JStr "bond01") (JStr "a03") (JStr "p1")
          (JStr "YWxpY2U=") (JStr "network1") (JStr "Ym9i") (JStr "network2")
          (JNum (Int 1700000000))) = true).
Proof.
  exact (address_segments Sample.env (JStr "bond") (JStr "bond01") (JStr "a03")
           (JStr "p1") (JStr "YWxpY2U=") (JStr "network1") (JStr "Ym9i")
           (JStr "network2") (JNum (Int 1700000000)) "GetAssetClaimStatus"
           eq_refl eq_refl).
Defined.

(** The reclaim of the bond of the examples reaches the gateway. *)
Lemma outside_reached_iff_witness :
  existsb is_io (trace (run Sample.env Sample.bond_options)) = true.
Proof.
  apply (outside_reached_iff Sample.env Sample.bond_options).
  split; [reflexivity |]. split; [reflexivity |]. split; [reflexivity |].
  exists "bond01:a03". split; [reflexivity |]. split; [reflexivity |].
  discriminate.
Defined.
